(** * Fault-injection firmware probes: RP2040 measurement probe and STM8L
      bootloader-path probe

    A shallow embedding of
      - projects/rp2040-glitching/rpi-program/main.cpp
      - projects/stm8l/profiling/check_empty.c
    and the properties of their trigger protocol, counter workload, interrupt
    masking and branch signalling. *)

From Stdlib Require Import ZArith List String Ascii Bool Lia.
From Stdlib Require Import DecimalPos DecimalString.
Import ListNotations.
Local Open Scope Z_scope.

(** ** A small state monad for the RP2040 firmware *)

Definition M (S A : Type) : Type := S -> A * S.

Definition ret {S A} (a : A) : M S A := fun s => (a, s).

Definition bind {S A B} (c : M S A) (k : A -> M S B) : M S B :=
  fun s => let (a, s') := c s in k a s'.

Definition modify {S} (f : S -> S) : M S unit := fun s => (tt, f s).

Definition gets {S A} (f : S -> A) : M S A := fun s => (f s, s).

Notation "x <- c ;; k" := (bind c (fun x => k))
  (at level 61, c at next level, right associativity).
Notation "c ;; k" := (bind c (fun _ => k))
  (at level 61, right associativity).

(** The newline character written by [std::endl]. *)
Definition nl : string := String (ascii_of_nat 10) EmptyString.

(** ** RP2040 measurement probe (main.cpp) *)

Module RP2040.

(** Core registers are named by their number; the workload only names r0. *)
Definition reg := nat.
Definition r0 : reg := 0%nat.

(** The three instruction shapes of the inline assembly block of
    [unrolled_loop]. *)
Inductive instr : Type :=
| LDR_lit (rd : reg) (imm : Z)        (* ldr rd, =imm      *)
| ADD_imm (rd rn : reg) (imm : Z)     (* add rd, rn, #imm  *)
| STR_cnt (rt : reg).                 (* str rt, %[cnt]    *)

(** #define add1 ... add256: adjacent string literals concatenate, so each
    macro is the instruction sequence of its two halves. *)
Definition add1 : list instr := [ADD_imm r0 r0 1].
Definition add2 := add1 ++ add1.
Definition add4 := add2 ++ add2.
Definition add8 := add4 ++ add4.
Definition add16 := add8 ++ add8.
Definition add32 := add16 ++ add16.
Definition add64 := add32 ++ add32.
Definition add128 := add64 ++ add64.
Definition add256 := add128 ++ add128.

(** What an outside observer (logic analyser, debugger) can see, in program
    order. *)
Inductive event : Type :=
| EvMRS (v : Z)                       (* MRS rX, PRIMASK read v          *)
| EvCPSID                             (* CPSID i                         *)
| EvMSR (v : Z)                       (* MSR PRIMASK, rX with rX = v     *)
| EvGpio (pin : Z) (level : bool)     (* gpio_put(pin, level)            *)
| EvExec (i : instr).                 (* one instruction of the workload *)

Record machine : Type := mkMachine {
  regs    : reg -> Z;       (* core registers, 32 bit, as the asm block
                               of unrolled_loop sees and leaves them *)
  primask : bool;           (* PRIMASK.PM: true = interrupts masked *)
  gpio    : Z -> bool;      (* output level of every GPIO *)
  cout    : string;         (* characters written to std::cout so far *)
  trace   : list event
}.

Definition wrap32 (z : Z) : Z := z mod 2 ^ 32.

(** Conversion uint32_t -> int, as done by [return counter] in a function
    returning int. *)
Definition to_int (z : Z) : Z :=
  let u := wrap32 z in if u <? 2 ^ 31 then u else u - 2 ^ 32.

Definition log (e : event) : M machine unit :=
  modify (fun m => mkMachine (regs m) (primask m) (gpio m) (cout m)
                             (trace m ++ [e])).

Definition set_reg (r : reg) (v : Z) : M machine unit :=
  modify (fun m => mkMachine (fun x => if Nat.eqb x r then v else regs m x)
                             (primask m) (gpio m) (cout m) (trace m)).

Definition set_primask (b : bool) : M machine unit :=
  modify (fun m => mkMachine (regs m) b (gpio m) (cout m) (trace m)).

Definition print (s : string) : M machine unit :=
  modify (fun m => mkMachine (regs m) (primask m) (gpio m)
                             (cout m ++ s)%string (trace m)).

(** SDK [gpio_put]: drive an output pin. *)
Definition gpio_put (pin : Z) (level : bool) : M machine unit :=
  modify (fun m => mkMachine (regs m) (primask m)
                             (fun p => if p =? pin then level else gpio m p)
                             (cout m) (trace m)) ;;
  log (EvGpio pin level).

(** uint32_t save_and_disable_interrupts(): MRS %0, PRIMASK; CPSID i *)
Definition save_and_disable_interrupts : M machine Z :=
  pm <- gets primask ;;
  let primask := Z.b2z pm in
  log (EvMRS primask) ;;
  set_primask true ;;
  log EvCPSID ;;
  ret primask.

(** void restore_interrupts(uint32_t primask): MSR PRIMASK, %0.  Only bit 0
    of PRIMASK is implemented. *)
Definition restore_interrupts (primask : Z) : M machine unit :=
  set_primask (Z.odd primask) ;;
  log (EvMSR primask).

(** One instruction of the asm block; [cnt] is the memory operand
    %[cnt], i.e. the local variable [counter]. *)
Definition exec_instr (i : instr) (cnt : Z) : M machine Z :=
  log (EvExec i) ;;
  match i with
  | LDR_lit rd imm => set_reg rd (wrap32 imm) ;; ret cnt
  | ADD_imm rd rn imm =>
      v <- gets (fun m => regs m rn) ;;
      set_reg rd (wrap32 (v + imm)) ;; ret cnt
  | STR_cnt rt => gets (fun m => regs m rt)
  end.

Fixpoint asm_volatile (code : list instr) (cnt : Z) : M machine Z :=
  match code with
  | [] => ret cnt
  | i :: rest => cnt' <- exec_instr i cnt ;; asm_volatile rest cnt'
  end.

(** The asm template of [unrolled_loop]. *)
Definition workload : list instr :=
  [LDR_lit r0 0] ++ add256 ++ [STR_cnt r0].

(** operator<<(int): signed decimal. *)
Definition dec (z : Z) : string := NilZero.string_of_int (Z.to_int z).

(** "XXX" << counter << "YYY" << counter << "ZZZ" *)
Definition reply (counter : Z) : string :=
  ("XXX" ++ dec counter ++ "YYY" ++ dec counter ++ "ZZZ")%string.

Section Board.
(** Board constant of the Pico SDK (boards/pico.h), not part of the
    repository. *)
Variable PICO_DEFAULT_LED_PIN : Z.

(** int unrolled_loop() *)
Definition unrolled_loop : M machine Z :=
  let counter := 0 in
  gpio_put PICO_DEFAULT_LED_PIN true ;;
  gpio_put 0 true ;;
  counter <- asm_volatile workload counter ;;
  gpio_put 0 false ;;
  gpio_put PICO_DEFAULT_LED_PIN false ;;
  ret (to_int counter).

(** Body of the [while (true)] loop of main, run once std::getline has
    delivered [line].  The C++ statements are given by their effect on
    PRIMASK, the pins, the output and the trace; which core registers the
    compiler uses for them is not modelled, so [regs] says nothing outside
    the asm block. *)
Definition measurement (line : string) : M machine unit :=
  primask <- save_and_disable_interrupts ;;
  counter <- unrolled_loop ;;
  restore_interrupts primask ;;
  print (reply counter ++ nl) ;;
  ret tt.                          (* std::cout << std::flush *)

(** The loop of main over the lines received so far; std::getline blocks
    when no further line is available. *)
Fixpoint main_loop (cin : list string) : M machine unit :=
  match cin with
  | [] => ret tt
  | line :: rest => measurement line ;; main_loop rest
  end.
End Board.

(** *** Vocabulary for the protocol properties *)

(** A matcher for the host-side pattern ^XXX([0-9]+)YYY\1ZZZ$ ; it returns
    the capture group.  A digit run followed by 'Y' is necessarily
    maximal, so taking the longest run loses no match. *)
Definition is_digit (c : ascii) : bool :=
  (48 <=? nat_of_ascii c)%nat && (nat_of_ascii c <=? 57)%nat.

Fixpoint span_digits (s : string) : string * string :=
  match s with
  | String c s' =>
      if is_digit c
      then let (d, r) := span_digits s' in (String c d, r)
      else (EmptyString, s)
  | EmptyString => (EmptyString, EmptyString)
  end.

Fixpoint strip_prefix (p s : string) : option string :=
  match p, s with
  | EmptyString, _ => Some s
  | String a p', String b s' =>
      if Ascii.eqb a b then strip_prefix p' s' else None
  | String _ _, EmptyString => None
  end.

Definition match_reply (s : string) : option string :=
  match strip_prefix "XXX" s with
  | Some s1 =>
      let (d, s2) := span_digits s1 in
      match d with
      | EmptyString => None
      | _ => match strip_prefix ("YYY" ++ d ++ "ZZZ") s2 with
             | Some EmptyString => Some d
             | _ => None
             end
      end
  | None => None
  end.

Fixpoint all_digits (s : string) : bool :=
  match s with
  | EmptyString => true
  | String c s' => is_digit c && all_digits s'
  end.

Definition is_gpio (pin : Z) (level : bool) (e : event) : bool :=
  match e with
  | EvGpio p l => (p =? pin) && Bool.eqb l level
  | _ => false
  end.

Definition is_cpsid (e : event) : bool :=
  match e with EvCPSID => true | _ => false end.

Definition is_msr (e : event) : bool :=
  match e with EvMSR _ => true | _ => false end.

Definition is_mrs (e : event) : bool :=
  match e with EvMRS _ => true | _ => false end.

Definition is_irq (e : event) : bool := is_mrs e || is_cpsid e || is_msr e.

Definition is_edge_or_exec (e : event) : bool :=
  match e with EvGpio _ _ | EvExec _ => true | _ => false end.

(** [happens_before p q tr]: some event satisfying [p] occurs in [tr]
    strictly earlier than some event satisfying [q]. *)
Fixpoint happens_before (p q : event -> bool) (tr : list event) : bool :=
  match tr with
  | [] => false
  | e :: tr' => (p e && existsb q tr') || happens_before p q tr'
  end.

(** The events a run appended to the trace: what is left of [after] once
    the first [length before] events are dropped. *)
Definition new_events (before after : machine) : list event :=
  skipn (List.length (trace before)) (trace after).

(** An idle board: interrupts enabled, every pin low, nothing printed or
    observed yet. *)
Definition idle_machine : machine :=
  mkMachine (fun _ => 0) false (fun _ => false) EmptyString [].

(** "Both trigger GPIOs go high before the interrupts-disabled region
    begins and low after it ends", as a property of the events of one
    measurement. *)
Definition gpios_bracket_critical_section (led : Z) (tr : list event) : Prop :=
  happens_before (is_gpio led true) is_cpsid tr = true /\
  happens_before (is_gpio 0 true) is_cpsid tr = true /\
  happens_before is_msr (is_gpio 0 false) tr = true /\
  happens_before is_msr (is_gpio led false) tr = true.

(** The same edges lying inside the interrupts-disabled region. *)
Definition gpios_inside_critical_section (led : Z) (tr : list event) : Prop :=
  happens_before is_cpsid (is_gpio led true) tr = true /\
  happens_before is_cpsid (is_gpio 0 true) tr = true /\
  happens_before (is_gpio 0 false) is_msr tr = true /\
  happens_before (is_gpio led false) is_msr tr = true.

End RP2040.

(** ** STM8L bootloader-path probe (check_empty.c) *)

Module STM8L.

Definition TRIG_PIN : Z := Z.shiftl 1 1.        (* PB1 *)
Definition SUCCESS_PIN : Z := Z.shiftl 1 4.     (* PB4 *)
Definition EXPECTED_PIN : Z := Z.shiftl 1 5.    (* PB5 *)

Inductive label : Type := bootl_check | rdp_check | enter_app | asm_done.

(** The STM8 instructions used by the __asm blocks. *)
Inductive instr : Type :=
| SIM                                 (* sim              *)
| LD_A (addr : Z)                     (* ld A, addr       *)
| CP_A (imm : Z)                      (* cp A, #imm       *)
| JREQ (l : label)                    (* jreq l           *)
| JRA (l : label)                     (* jra l            *)
| BSET (addr : Z) (bit : Z)           (* bset addr, #bit  *)
| NOP.                                (* nop              *)

Inductive line : Type :=
| L (l : label)                       (* l:               *)
| I (i : instr).

(** The first __asm block of main, line by line. *)
Definition decision_tree : list line :=
  [ I SIM;
    I (LD_A 0x8000);
    I (CP_A 0x82);
    I (JREQ bootl_check);
    I (CP_A 0xac);
    I (JREQ bootl_check);
    I (JRA rdp_check);
    L bootl_check;
    I (LD_A 0x480b);
    I (CP_A 0x55);
    I (JREQ rdp_check);
    I (JRA enter_app);
    L rdp_check;
    I (BSET 0x5005 0x4);
    I (JRA asm_done);
    L enter_app;
    I (BSET 0x5005 0x5);
    L asm_done;
    I NOP ].

(** The second __asm block, compiled in under #ifdef ALWAYS_SUCCESS. *)
Definition always_success_asm : list line :=
  [ I (BSET 0x5005 0x4) ].

(** Observable actions, in program order: every store (register
    assignments of the C part and bset), every [ld A, addr], [sim], and
    the labels control passes through. *)
Inductive event : Type :=
| EvStore (addr v : Z)
| EvLd (addr : Z)
| EvSim
| EvLabel (l : label).

Record cpu : Type := mkCpu {
  mem   : Z -> Z;          (* byte-addressed memory and memory-mapped I/O *)
  A     : Z;               (* accumulator *)
  ccZ   : bool;            (* zero flag of CC *)
  ccI   : bool;            (* interrupt mask of CC *)
  trace : list event
}.

Definition log (e : event) (s : cpu) : cpu :=
  mkCpu (mem s) (A s) (ccZ s) (ccI s) (trace s ++ [e]).

(** An 8-bit read and an 8-bit write. *)
Definition read8 (s : cpu) (addr : Z) : Z := mem s addr mod 256.

Definition store (addr v : Z) (s : cpu) : cpu :=
  log (EvStore addr (v mod 256))
      (mkCpu (fun a => if a =? addr then v mod 256 else mem s a)
             (A s) (ccZ s) (ccI s) (trace s)).

(** C compound assignment [*addr |= mask] on a volatile 8-bit register. *)
Definition or_assign (addr mask : Z) (s : cpu) : cpu :=
  store addr (Z.lor (read8 s addr) mask) s.

Definition label_eqb (a b : label) : bool :=
  match a, b with
  | bootl_check, bootl_check | rdp_check, rdp_check
  | enter_app, enter_app | asm_done, asm_done => true
  | _, _ => false
  end.

Fixpoint find_label (l : label) (code : list line) : option nat :=
  match code with
  | [] => None
  | L l' :: rest =>
      if label_eqb l l' then Some 0%nat else option_map S (find_label l rest)
  | I _ :: rest => option_map S (find_label l rest)
  end.

(** One instruction at index [pc] of [code]: the next index and the new
    state; [None] when a jump names a label the block does not define. *)
Definition exec (code : list line) (i : instr) (pc : nat) (s : cpu)
  : option (nat * cpu) :=
  match i with
  | SIM => Some (S pc, log EvSim (mkCpu (mem s) (A s) (ccZ s) true (trace s)))
  | LD_A addr =>
      Some (S pc, log (EvLd addr)
                      (mkCpu (mem s) (read8 s addr) (ccZ s) (ccI s) (trace s)))
  | CP_A imm =>
      Some (S pc, mkCpu (mem s) (A s) (A s =? imm) (ccI s) (trace s))
  | JREQ l =>
      if ccZ s
      then option_map (fun t => (t, s)) (find_label l code)
      else Some (S pc, s)
  | JRA l => option_map (fun t => (t, s)) (find_label l code)
  | BSET addr bit =>
      Some (S pc, store addr (Z.lor (read8 s addr) (Z.shiftl 1 bit)) s)
  | NOP => Some (S pc, s)
  end.

(** Run an __asm block from index [pc] until control falls off its end;
    [None] when [fuel] steps were not enough. *)
Fixpoint run_asm (fuel : nat) (code : list line) (pc : nat) (s : cpu)
  : option cpu :=
  match nth_error code pc with
  | None => Some s
  | Some ln =>
      match fuel with
      | O => None
      | S fuel' =>
          match ln with
          | L l => run_asm fuel' code (S pc) (log (EvLabel l) s)
          | I i =>
              match exec code i pc s with
              | Some (pc', s') => run_asm fuel' code pc' s'
              | None => None
              end
          end
      end
  end.

Section Header.
(** Register addresses declared by the device header stm8l.h that the
    program includes. *)
Variables CLK_PCKENR1 PB_DDR PB_CR1 PB_CR2 PB_ODR : Z.

(** void main(void), up to the point where it enters [for (;;) ;], in
    which it stays.  [ALWAYS_SUCCESS] tells whether the macro is defined
    for the build. *)
Definition main (ALWAYS_SUCCESS : bool) (s : cpu) : option cpu :=
  let s := store CLK_PCKENR1 0xff s in
  let s := or_assign PB_DDR (Z.lor (Z.lor TRIG_PIN SUCCESS_PIN) EXPECTED_PIN) s in
  let s := or_assign PB_CR1 (Z.lor (Z.lor TRIG_PIN SUCCESS_PIN) EXPECTED_PIN) s in
  let s := or_assign PB_CR2 (Z.lor (Z.lor TRIG_PIN SUCCESS_PIN) EXPECTED_PIN) s in
  let s := or_assign PB_ODR TRIG_PIN s in
  match run_asm (List.length decision_tree) decision_tree 0 s with
  | Some s =>
      if ALWAYS_SUCCESS
      then run_asm (List.length always_success_asm) always_success_asm 0 s
      else Some s
  | None => None
  end.

(** What the theorems need to know of stm8l.h: the output data register
    of port B is the address the asm blocks write with [bset], and the five
    names denote five different registers of the peripheral register
    area. *)
Definition header_ok : Prop :=
  PB_ODR = 0x5005 /\
  (0x5000 <= CLK_PCKENR1 < 0x5800) /\
  (0x5000 <= PB_DDR < 0x5800) /\
  (0x5000 <= PB_CR1 < 0x5800) /\
  (0x5000 <= PB_CR2 < 0x5800) /\
  CLK_PCKENR1 <> PB_ODR /\ CLK_PCKENR1 <> PB_DDR /\
  CLK_PCKENR1 <> PB_CR1 /\ CLK_PCKENR1 <> PB_CR2 /\
  PB_DDR <> PB_ODR /\ PB_CR1 <> PB_ODR /\ PB_CR2 <> PB_ODR /\
  PB_DDR <> PB_CR1 /\ PB_DDR <> PB_CR2 /\ PB_CR1 <> PB_CR2.
End Header.

(** *** Vocabulary for the signalling properties *)

(** The byte left in a register holding [v] by an 8-bit OR with [mask]. *)
Definition or8 (v mask : Z) : Z := Z.lor (v mod 256) mask mod 256.

(** Level of pin PB[bit] when the output data register holds [odr]. *)
Definition pin (bit : Z) (odr : Z) : bool := Z.testbit odr bit.

(** Indices (counted from [idx]) of the events of [tr] at which bit [bit]
    of the register at [addr] goes from 0 to 1; [cur] is the register's
    value before [tr]. *)
Fixpoint rising_edges (addr bit cur : Z) (idx : nat) (tr : list event)
  : list nat :=
  match tr with
  | [] => []
  | EvStore a v :: tr' =>
      if a =? addr
      then (if negb (Z.testbit cur bit) && Z.testbit v bit then [idx] else [])
           ++ rising_edges addr bit v (S idx) tr'
      else rising_edges addr bit cur (S idx) tr'
  | _ :: tr' => rising_edges addr bit cur (S idx) tr'
  end.

(** Indices of the [ld A, addr] events of [tr]. *)
Fixpoint ld_indices (idx : nat) (tr : list event) : list nat :=
  match tr with
  | [] => []
  | EvLd _ :: tr' => idx :: ld_indices (S idx) tr'
  | _ :: tr' => ld_indices (S idx) tr'
  end.

Definition reached (l : label) (s : cpu) : bool :=
  existsb (fun e => match e with EvLabel l' => label_eqb l l' | _ => false end)
          (trace s).

Definition loaded (addr : Z) (s : cpu) : bool :=
  existsb (fun e => match e with EvLd a => a =? addr | _ => false end)
          (trace s).

(** The byte at 0x8000 arms the bootloader check. *)
Definition armed (b : Z) : bool := (b =? 0x82) || (b =? 0xac).

(** A core coming out of reset with memory contents [m]. *)
Definition boot (m : Z -> Z) (a : Z) (z i : bool) : cpu := mkCpu m a z i [].

(** The values written to the register at [addr], in order. *)
Fixpoint stores_to (addr : Z) (tr : list event) : list Z :=
  match tr with
  | [] => []
  | EvStore a v :: tr' =>
      if a =? addr then v :: stores_to addr tr' else stores_to addr tr'
  | _ :: tr' => stores_to addr tr'
  end.

(** Every value of the sequence keeps the bits of the value before it;
    [cur] is the value before the first. *)
Fixpoint bits_only_set (cur : Z) (vals : list Z) : bool :=
  match vals with
  | [] => true
  | v :: rest => (Z.lor cur v =? v) && bits_only_set v rest
  end.

(** Index of the first [sim] of [tr], counted from [idx]. *)
Fixpoint sim_indices (idx : nat) (tr : list event) : list nat :=
  match tr with
  | [] => []
  | EvSim :: tr' => idx :: sim_indices (S idx) tr'
  | _ :: tr' => sim_indices (S idx) tr'
  end.

Definition is_store_to (addr : Z) (e : event) : bool :=
  match e with EvStore a _ => a =? addr | _ => false end.

Definition is_store (e : event) : bool :=
  match e with EvStore _ _ => true | _ => false end.

(** A memory image holding [b8000] at 0x8000, [b480b] at 0x480b and 0
    elsewhere (peripheral registers at their reset value 0x00). *)
Definition flash (b8000 b480b : Z) : Z -> Z :=
  fun a => if a =? 0x8000 then b8000 else if a =? 0x480b then b480b else 0.

End STM8L.

(** ** RP2040: start-up of main (main.cpp, lines 64-84) *)

Module RP2040_Boot.
Import RP2040.

(** Calls into the Pico SDK made by main outside the measurement. *)
Inductive call : Type :=
| StdioInitAll                        (* stdio_init_all()            *)
| GpioInit (pin : Z)                  (* gpio_init(pin)              *)
| GpioSetDirOut (pin : Z)             (* gpio_set_dir(pin, GPIO_OUT) *)
| StdioUsbInit                        (* stdio_usb_init()            *)
| StdioUsbConnected (r : bool)        (* stdio_usb_connected() = r   *)
| SleepMs (ms : Z).                   (* sleep_ms(ms)                *)

(** The board log interleaves SDK calls with the events of the core. *)
Inductive bevent : Type :=
| BCall (c : call)
| BCore (e : event).

Record board : Type := mkBoard {
  core     : machine;
  clock_ms : Z;            (* time spent in sleep_ms *)
  blog     : list bevent
}.

(** Run a computation of the core on the board, copying the events it
    appends into the board log. *)
Definition lift {A} (c : M machine A) : M board A :=
  fun b =>
    let (a, m') := c (core b) in
    (a, mkBoard m' (clock_ms b)
                (blog b ++ map BCore (new_events (core b) m'))).

Definition sdk (c : call) : M board unit :=
  modify (fun b => mkBoard (core b) (clock_ms b) (blog b ++ [BCall c])).

Definition sleep_ms (ms : Z) : M board unit :=
  modify (fun b => mkBoard (core b) (clock_ms b + ms)
                           (blog b ++ [BCall (SleepMs ms)])).

Section Board.
Variable PICO_DEFAULT_LED_PIN : Z.

(** while (!stdio_usb_connected()) { ... }: [polls] are the answers
    of the successive calls of stdio_usb_connected.  The result tells
    whether the loop was left; it is [false] when every answer so far was
    negative, in which case the program is still blinking. *)
Fixpoint wait_usb (polls : list bool) : M board bool :=
  match polls with
  | [] => ret false
  | connected :: rest =>
      sdk (StdioUsbConnected connected) ;;
      if connected then ret true
      else
        lift (gpio_put PICO_DEFAULT_LED_PIN true) ;;
        sleep_ms 250 ;;
        lift (gpio_put PICO_DEFAULT_LED_PIN false) ;;
        sleep_ms 250 ;;
        wait_usb rest
  end.

(** int main(): set-up, wait for USB, banner and prompt, then the
    measurement loop over the lines of [cin]. *)
Definition main (polls : list bool) (cin : list string) : M board unit :=
  sdk StdioInitAll ;;
  sdk (GpioInit PICO_DEFAULT_LED_PIN) ;;
  sdk (GpioSetDirOut PICO_DEFAULT_LED_PIN) ;;
  sdk (GpioInit 0) ;;
  sdk (GpioSetDirOut 0) ;;
  sdk StdioUsbInit ;;
  connected <- wait_usb polls ;;
  if connected then
    lift (print ("RP2040 Test Program" ++ nl)) ;;
    lift (print ("send something to start the counter." ++ nl)) ;;
    lift (main_loop PICO_DEFAULT_LED_PIN cin)
  else ret tt.
End Board.

(** One period of the waiting blink, preceded by the negative poll. *)
Definition blink_period (led : Z) : list bevent :=
  [ BCall (StdioUsbConnected false);
    BCore (EvGpio led true); BCall (SleepMs 250);
    BCore (EvGpio led false); BCall (SleepMs 250) ].

Definition is_measurement_event (e : bevent) : bool :=
  match e with
  | BCore (EvMRS _) | BCore EvCPSID | BCore (EvMSR _) | BCore (EvExec _) => true
  | _ => false
  end.

(** A board at power-on. *)
Definition power_on : board := mkBoard idle_machine 0 [].

End RP2040_Boot.

(** ** ATmega328P blink (blink.c) *)

Module AVR.

Record avr : Type := mkAvr {
  DDRB       : Z;          (* port B data direction register, 8 bit *)
  PORTB      : Z;          (* port B data register, 8 bit *)
  elapsed_ms : Z           (* time spent in _delay_ms *)
}.

Section IoHeader.
(** Bit number of pin PB5 as declared by avr/io.h. *)
Variable PB5 : Z.

(** DDRB |= (1 << PB5); *)
Definition setup (s : avr) : avr :=
  mkAvr (Z.lor (DDRB s mod 256) (Z.shiftl 1 PB5) mod 256)
        (PORTB s) (elapsed_ms s).

(** PORTB ^= (1 << PB5); _delay_ms(100); *)
Definition iteration (s : avr) : avr :=
  mkAvr (DDRB s)
        (Z.lxor (PORTB s mod 256) (Z.shiftl 1 PB5) mod 256)
        (elapsed_ms s + 100).

(** The first [n] iterations of [while (1)]. *)
Fixpoint loop (n : nat) (s : avr) : avr :=
  match n with
  | O => s
  | S n' => loop n' (iteration s)
  end.

(** int main(void), observed after [n] iterations of its loop. *)
Definition main (n : nat) (s : avr) : avr := loop n (setup s).
End IoHeader.

End AVR.

(** * Properties of the RP2040 measurement probe *)

Section RP2040_Properties.
Import RP2040.

Lemma bind_run {S A B} (c : M S A) (k : A -> M S B) (s : S) :
  bind c k s = k (fst (c s)) (snd (c s)).
Proof. unfold bind. destruct (c s); reflexivity. Qed.

Lemma seq_run {S A B} (c : M S A) (k : M S B) (s : S) :
  bind c (fun _ => k) s = k (snd (c s)).
Proof. unfold bind. destruct (c s); reflexivity. Qed.

Lemma seq_ret_run {S A} (c : M S A) (s : S) :
  snd (bind c (fun _ => ret tt) s) = snd (c s).
Proof. unfold bind, ret. destruct (c s); reflexivity. Qed.

Lemma asm_volatile_app (a b : list instr) (cnt : Z) (m : machine) :
  asm_volatile (a ++ b) cnt m =
  asm_volatile b (fst (asm_volatile a cnt m)) (snd (asm_volatile a cnt m)).
Proof.
  revert cnt m. induction a as [|i a IH]; intros cnt m; [reflexivity|].
  cbn [app asm_volatile]. rewrite !bind_run. apply IH.
Qed.

(** The asm block touches nothing but core registers and the trace. *)
Lemma exec_instr_frame (i : instr) (cnt : Z) (m : machine) :
  let m' := snd (exec_instr i cnt m) in
  primask m' = primask m /\ gpio m' = gpio m /\ cout m' = cout m /\
  trace m' = trace m ++ [EvExec i].
Proof. destruct i; cbn; auto. Qed.

Lemma asm_volatile_frame (code : list instr) (cnt : Z) (m : machine) :
  let m' := snd (asm_volatile code cnt m) in
  primask m' = primask m /\ gpio m' = gpio m /\ cout m' = cout m /\
  trace m' = trace m ++ map EvExec code.
Proof.
  revert cnt m. induction code as [|i code IH]; intros cnt m; cbn zeta.
  - cbn. rewrite app_nil_r. auto.
  - cbn [asm_volatile map]. rewrite bind_run.
    destruct (exec_instr_frame i cnt m) as (Hp & Hg & Hc & Ht).
    destruct (IH (fst (exec_instr i cnt m)) (snd (exec_instr i cnt m)))
      as (Hp' & Hg' & Hc' & Ht').
    rewrite Hp', Hg', Hc', Ht', Hp, Hg, Hc, Ht, <- app_assoc. auto.
Qed.

(** [n] increments of r0, starting from the 32-bit value of [v]. *)
Lemma exec_adds (n : nat) (v cnt : Z) (m : machine) :
  regs m r0 = wrap32 v ->
  let r := asm_volatile (repeat (ADD_imm r0 r0 1) n) cnt m in
  fst r = cnt /\
  regs (snd r) r0 = wrap32 (v + Z.of_nat n) /\
  (forall x, x <> r0 -> regs (snd r) x = regs m x).
Proof.
  revert v m. induction n as [|n IH]; intros v m Hv; cbn zeta.
  - cbn. rewrite Z.add_0_r. auto.
  - cbn [repeat asm_volatile]. rewrite bind_run.
    set (m1 := snd (exec_instr (ADD_imm r0 r0 1) cnt m)).
    assert (H1 : regs m1 r0 = wrap32 (v + 1)).
    { subst m1. cbn. rewrite Hv. unfold wrap32.
      rewrite Z.add_mod_idemp_l by lia. reflexivity. }
    assert (Hx : forall x, x <> r0 -> regs m1 x = regs m x).
    { intros x Hne. subst m1. cbn.
      destruct (Nat.eqb_spec x r0); [contradiction | reflexivity]. }
    replace (fst (exec_instr (ADD_imm r0 r0 1) cnt m)) with cnt by reflexivity.
    destruct (IH (v + 1) m1 H1) as (Hc & Hr & Ho).
    repeat split; [exact Hc | | ].
    + rewrite Hr. f_equal. lia.
    + intros x Hne. rewrite Ho by exact Hne. auto.
Qed.

Lemma add256_unrolled : add256 = repeat (ADD_imm r0 r0 1) 256.
Proof. reflexivity. Qed.

Lemma workload_shape :
  workload = LDR_lit r0 0 :: repeat (ADD_imm r0 r0 1) 256 ++ [STR_cnt r0].
Proof. reflexivity. Qed.

Lemma asm_str (cnt : Z) (m : machine) :
  asm_volatile [STR_cnt r0] cnt m =
  (regs m r0,
   mkMachine (regs m) (primask m) (gpio m) (cout m)
             (trace m ++ [EvExec (STR_cnt r0)])).
Proof. reflexivity. Qed.

Lemma workload_run (cnt : Z) (m : machine) :
  let r := asm_volatile workload cnt m in
  fst r = 256 /\ regs (snd r) r0 = 256 /\
  (forall x, x <> r0 -> regs (snd r) x = regs m x).
Proof.
  cbn zeta. rewrite workload_shape.
  change (LDR_lit r0 0 :: repeat (ADD_imm r0 r0 1) 256 ++ [STR_cnt r0])
    with ([LDR_lit r0 0] ++ repeat (ADD_imm r0 r0 1) 256 ++ [STR_cnt r0]).
  rewrite !asm_volatile_app.
  set (m1 := snd (asm_volatile [LDR_lit r0 0] cnt m)).
  replace (fst (asm_volatile [LDR_lit r0 0] cnt m)) with cnt by reflexivity.
  assert (H1 : regs m1 r0 = wrap32 0) by reflexivity.
  assert (Hx : forall x, x <> r0 -> regs m1 x = regs m x).
  { intros x Hne. subst m1. cbn.
    destruct (Nat.eqb_spec x r0); [contradiction | reflexivity]. }
  destruct (exec_adds 256 0 cnt m1 H1) as (Hc & Hr & Ho).
  remember (asm_volatile (repeat (ADD_imm r0 r0 1) 256) cnt m1) as r eqn:Er.
  clear Er. destruct r as [c m2]. cbn [fst snd] in *. subst c.
  rewrite asm_str. cbn [fst snd regs]. rewrite Hr.
  repeat split; try reflexivity.
  intros x Hne. rewrite Ho by exact Hne. auto.
Qed.

Lemma gpio_put_run (pin : Z) (level : bool) (m : machine) :
  gpio_put pin level m =
  (tt, mkMachine (regs m) (primask m)
                 (fun p => if p =? pin then level else gpio m p)
                 (cout m) (trace m ++ [EvGpio pin level])).
Proof. reflexivity. Qed.

Lemma new_events_app (m m' : machine) (tr : list event) :
  trace m' = trace m ++ tr -> new_events m m' = tr.
Proof.
  intros H. unfold new_events. rewrite H, skipn_app, skipn_all, Nat.sub_diag.
  reflexivity.
Qed.

Lemma happens_before_split (p q : event -> bool) (a b : event)
      (l1 l2 l3 : list event) :
  p a = true -> q b = true ->
  happens_before p q (l1 ++ a :: l2 ++ b :: l3) = true.
Proof.
  intros Hp Hq. induction l1 as [|e l1 IH]; cbn [app happens_before].
  - rewrite Hp, existsb_app. cbn [existsb]. rewrite Hq.
    rewrite orb_true_r. reflexivity.
  - rewrite IH. apply orb_true_r.
Qed.

Lemma b2z_odd (b : bool) : Z.odd (Z.b2z b) = b.
Proof. destruct b; reflexivity. Qed.

Variable LED : Z.

(** Events of one call of [unrolled_loop], and of one measurement whose
    interrupt-mask snapshot is [v]. *)
Let loop_events : list event :=
  [EvGpio LED true; EvGpio 0 true] ++ map EvExec workload ++
  [EvGpio 0 false; EvGpio LED false].

Let cycle_events (v : Z) : list event :=
  [EvMRS v; EvCPSID] ++ loop_events ++ [EvMSR v].

Lemma unrolled_loop_spec (m : machine) :
  let r := unrolled_loop LED m in
  fst r = 256 /\
  primask (snd r) = primask m /\
  cout (snd r) = cout m /\
  trace (snd r) = trace m ++ loop_events /\
  gpio (snd r) LED = false /\ gpio (snd r) 0 = false /\
  (forall p, p <> LED -> p <> 0 -> gpio (snd r) p = gpio m p).
Proof.
  cbn zeta. unfold unrolled_loop, loop_events.
  rewrite bind_run, gpio_put_run; cbv beta; cbn [fst snd].
  rewrite bind_run, gpio_put_run; cbv beta; cbn [fst snd].
  rewrite bind_run; cbv beta.
  match goal with |- context [asm_volatile workload 0 ?M] =>
    destruct (workload_run 0 M) as (Hc & _);
    destruct (asm_volatile_frame workload 0 M) as (Hp & Hg & Hco & Ht);
    destruct (asm_volatile workload 0 M) as [c m3]
  end.
  cbn [fst snd regs primask gpio cout trace] in Hc, Hp, Hg, Hco, Ht.
  subst c.
  rewrite !seq_run, !gpio_put_run.
  cbn [fst snd ret regs primask gpio cout trace].
  rewrite Hp, Hco, Ht, Hg, Z.eqb_refl.
  repeat split; try reflexivity.
  - rewrite <- !app_assoc. reflexivity.
  - destruct (0 =? LED); reflexivity.
  - intros p H1 H2.
    destruct (Z.eqb_spec p LED); [contradiction|].
    destruct (Z.eqb_spec p 0); [contradiction|]. reflexivity.
Qed.

Lemma measurement_spec (line : string) (m : machine) :
  let m' := snd (measurement LED line m) in
  trace m' = trace m ++ cycle_events (Z.b2z (primask m)) /\
  cout m' = (cout m ++ reply 256 ++ nl)%string /\
  primask m' = primask m /\
  gpio m' LED = false /\ gpio m' 0 = false /\
  (forall p, p <> LED -> p <> 0 -> gpio m' p = gpio m p).
Proof.
  cbn zeta. unfold measurement, cycle_events, save_and_disable_interrupts.
  rewrite !bind_run; cbv beta.
  cbn [gets log set_primask modify ret fst snd regs primask gpio cout trace].
  match goal with |- context [unrolled_loop LED ?M] =>
    destruct (unrolled_loop_spec M)
      as (Hc & Hp & Hco & Ht & Hl & Hz & Hg);
    destruct (unrolled_loop LED M) as [c m3]
  end.
  cbn [fst snd regs primask gpio cout trace]
    in Hc, Hp, Hco, Ht, Hl, Hz, Hg.
  subst c. unfold restore_interrupts, print.
  rewrite ?bind_run, ?seq_run; cbv beta.
  cbn [modify log set_primask ret fst snd regs primask gpio cout trace].
  rewrite Ht, Hco, b2z_odd, <- !app_assoc.
  repeat split; auto.
Qed.

Lemma string_app_assoc (a b c : string) :
  ((a ++ b) ++ c = a ++ b ++ c)%string.
Proof. induction a as [|x a IH]; cbn; [reflexivity | now rewrite IH]. Qed.

Lemma string_app_nil_r (a : string) : (a ++ "" = a)%string.
Proof. induction a as [|x a IH]; cbn; [reflexivity | now rewrite IH]. Qed.

Lemma concat_lines_cons (x : string) (xs : list string) :
  String.concat "" (x :: xs) = (x ++ String.concat "" xs)%string.
Proof. destruct xs; cbn; [now rewrite string_app_nil_r | reflexivity]. Qed.

Lemma main_loop_spec (cin : list string) (m : machine) :
  let m' := snd (main_loop LED cin m) in
  cout m' =
    (cout m ++ String.concat "" (map (fun _ => reply 256 ++ nl) cin))%string /\
  primask m' = primask m /\
  trace m' =
    trace m ++
    List.concat (map (fun _ => cycle_events (Z.b2z (primask m))) cin).
Proof.
  revert m. induction cin as [|line cin IH]; intros m; cbn zeta.
  - cbn. now rewrite string_app_nil_r, app_nil_r.
  - cbn [main_loop map List.concat]. rewrite seq_run, concat_lines_cons.
    destruct (measurement_spec line m) as (Ht & Hc & Hp & _).
    destruct (IH (snd (measurement LED line m))) as (Hc' & Hp' & Ht').
    rewrite Hc', Hp', Ht', Hc, Hp, Ht, !string_app_assoc, <- !app_assoc.
    auto.
Qed.

Lemma main_loop_app (a b : list string) (m : machine) :
  main_loop LED (a ++ b) m = main_loop LED b (snd (main_loop LED a m)).
Proof.
  revert m. induction a as [|x a IH]; intros m; [reflexivity|].
  cbn [app main_loop]. rewrite !seq_run. apply IH.
Qed.

Lemma filter_irq_exec (code : list instr) :
  filter is_irq (map EvExec code) = [].
Proof. induction code; [reflexivity | assumption]. Qed.

Lemma filter_edge_exec (code : list instr) :
  filter is_edge_or_exec (map EvExec code) = map EvExec code.
Proof. induction code as [|i code IH]; cbn; [reflexivity | now rewrite IH]. Qed.

Lemma map_const_repeat {A B} (b : B) (l : list A) :
  map (fun _ => b) l = repeat b (List.length l).
Proof. induction l as [|x l IH]; cbn; [reflexivity | now rewrite IH]. Qed.

(** Decimal numerals are runs of digits. *)
Lemma span_digits_uint (d : Decimal.uint) (c : ascii) (rest : string) :
  is_digit c = false ->
  span_digits (NilEmpty.string_of_uint d ++ String c rest) =
  (NilEmpty.string_of_uint d, String c rest).
Proof.
  intros Hc. induction d; cbn [NilEmpty.string_of_uint append span_digits];
    try (change (is_digit _) with true at 1; cbv iota; rewrite IHd; reflexivity).
  rewrite Hc. reflexivity.
Qed.

Lemma strip_prefix_refl (s : string) : strip_prefix s s = Some EmptyString.
Proof.
  induction s as [|a s IH]; cbn; [reflexivity|].
  now rewrite Ascii.eqb_refl.
Qed.

Lemma strip_prefix_sound (p s r : string) :
  strip_prefix p s = Some r -> s = (p ++ r)%string.
Proof.
  revert s. induction p as [|a p IH]; intros s H; cbn in H.
  - now inversion H.
  - destruct s as [|b s]; [discriminate|].
    destruct (Ascii.eqb_spec a b) as [->|]; [|discriminate].
    cbn. now rewrite (IH _ H).
Qed.

Lemma span_digits_sound (s d r : string) :
  span_digits s = (d, r) -> s = (d ++ r)%string /\ all_digits d = true.
Proof.
  revert d r. induction s as [|c s IH]; intros d r H; cbn in H.
  - inversion H. split; reflexivity.
  - destruct (is_digit c) eqn:Hc.
    + destruct (span_digits s) as [d' r'] eqn:E. inversion H; subst.
      destruct (IH _ _ eq_refl) as (-> & Hd). cbn. rewrite Hc, Hd.
      split; reflexivity.
    + inversion H; subst. split; reflexivity.
Qed.

(** Whatever [match_reply] accepts has the framed form, with the same
    non-empty digit run at both places. *)
Lemma match_reply_sound (s d : string) :
  match_reply s = Some d ->
  s = ("XXX" ++ d ++ "YYY" ++ d ++ "ZZZ")%string /\
  d <> EmptyString /\ all_digits d = true.
Proof.
  unfold match_reply. intros H.
  destruct (strip_prefix "XXX" s) as [s1|] eqn:E1; [|discriminate].
  destruct (span_digits s1) as [d' s2] eqn:E2.
  destruct d' as [|c d']; [discriminate|].
  destruct (strip_prefix ("YYY" ++ String c d' ++ "ZZZ") s2)
    as [[|? ?]|] eqn:E3; try discriminate.
  inversion H; subst d.
  apply strip_prefix_sound in E1. apply strip_prefix_sound in E3.
  destruct (span_digits_sound _ _ _ E2) as (E4 & Hd).
  rewrite string_app_nil_r in E3. subst s s1 s2.
  split; [reflexivity | split; [discriminate | exact Hd]].
Qed.

Lemma dec_nonneg (n : N) :
  exists d, d <> Decimal.Nil /\ dec (Z.of_N n) = NilEmpty.string_of_uint d.
Proof.
  destruct n as [|p]; cbn.
  - exists (Decimal.D0 Decimal.Nil). split; [discriminate | reflexivity].
  - exists (Pos.to_uint p). split; [apply DecimalPos.Unsigned.to_uint_nonnil|].
    unfold dec. cbn. pose proof (DecimalPos.Unsigned.to_uint_nonnil p) as H.
    destruct (Pos.to_uint p); [contradiction | reflexivity ..].
Qed.

Lemma match_reply_nonneg (n : N) :
  match_reply (reply (Z.of_N n)) = Some (dec (Z.of_N n)).
Proof.
  destruct (dec_nonneg n) as (d & Hd & E). unfold reply. rewrite E.
  unfold match_reply. cbn [strip_prefix append Ascii.eqb Bool.eqb].
  change ("YYY" ++ NilEmpty.string_of_uint d ++ "ZZZ")%string
    with (String "Y" ("YY" ++ NilEmpty.string_of_uint d ++ "ZZZ"))%string.
  rewrite span_digits_uint by reflexivity.
  destruct d; try contradiction; cbn [NilEmpty.string_of_uint];
    match goal with |- context [strip_prefix ?a ?b] =>
      change b with a; rewrite strip_prefix_refl end; reflexivity.
Qed.

(** C1: in every measurement cycle the asm block zeroes r0, then executes
    exactly 256 [add r0, r0, #1] instructions obtained by doubling [add1]
    eight times, then stores r0 to [counter]; nothing else happens between
    the rising and the falling edge of GPIO 0, and both the value returned
    by [unrolled_loop] and the value printed are 256, whatever the machine
    state before the cycle. *)
Theorem C1_counter_is_256 (line : string) (cnt : Z) (m : machine) :
  workload = LDR_lit r0 0 :: repeat (ADD_imm r0 r0 1) 256 ++ [STR_cnt r0] /\
  add256 = repeat (ADD_imm r0 r0 1) (2 ^ 8) /\
  regs (snd (asm_volatile [LDR_lit r0 0] cnt m)) r0 = 0 /\
  fst (asm_volatile workload cnt m) = 256 /\
  regs (snd (asm_volatile workload cnt m)) r0 = 256 /\
  fst (unrolled_loop LED m) = 256 /\
  new_events m (snd (unrolled_loop LED m)) =
    [EvGpio LED true; EvGpio 0 true] ++ map EvExec workload ++
    [EvGpio 0 false; EvGpio LED false] /\
  cout (snd (measurement LED line m)) =
    (cout m ++ "XXX256YYY256ZZZ" ++ nl)%string.
Proof.
  destruct (workload_run cnt m) as (Hc & Hr & _).
  destruct (unrolled_loop_spec m) as (Hu & _ & _ & Ht & _).
  destruct (measurement_spec line m) as (_ & Hco & _).
  repeat split; try reflexivity; try assumption.
  apply new_events_app. exact Ht.
Qed.

(** C2: for every input line, empty or not, one measurement appends
    exactly one line to the output; it is XXX256YYY256ZZZ, it matches
    ^XXX([0-9]+)YYY\1ZZZ$ with capture group 256, and a run over any list of
    lines emits one such line per input line.  Whatever non-negative
    counter is printed, its two occurrences are the same numeral. *)
Theorem C2_one_reply_per_line
        (line : string) (cin : list string) (m : machine) (n : N) :
  cout (snd (measurement LED line m)) = (cout m ++ reply 256 ++ nl)%string /\
  cout (snd (measurement LED EmptyString m)) =
    (cout m ++ reply 256 ++ nl)%string /\
  reply 256 = "XXX256YYY256ZZZ"%string /\
  String.index 0 nl (reply 256) = None /\
  match_reply (reply 256) = Some (dec 256) /\
  dec 256 = "256"%string /\
  cout (snd (main_loop LED cin m)) =
    (cout m ++ String.concat "" (repeat (reply 256 ++ nl) (List.length cin)))%string /\
  match_reply (reply (Z.of_N n)) = Some (dec (Z.of_N n)).
Proof.
  destruct (measurement_spec line m) as (_ & Hco & _).
  destruct (measurement_spec EmptyString m) as (_ & Hco' & _).
  destruct (main_loop_spec cin m) as (Hl & _).
  rewrite map_const_repeat in Hl.
  repeat split; try reflexivity; try assumption.
  apply match_reply_nonneg.
Qed.

(** C3 as stated fails: in the measurement started by the line "go" on an
    idle board with the LED on pin 25, the trigger GPIOs do not go high
    before interrupts are disabled. *)
Lemma C3_counterexample :
  ~ gpios_bracket_critical_section 25
      (new_events idle_machine (snd (measurement 25 "go" idle_machine))).
Proof.
  intros (H & _). vm_compute in H. discriminate H.
Qed.

(** C3 (amended): in every measurement the two trigger GPIOs are driven
    high after interrupts have been disabled and driven low before the
    interrupt mask is restored: all four edges lie inside the
    interrupts-disabled region. *)
Theorem C3_gpio_edges_inside_critical_section (line : string) (m : machine) :
  gpios_inside_critical_section LED
    (new_events m (snd (measurement LED line m))).
Proof.
  destruct (measurement_spec line m) as (Ht & _).
  rewrite (new_events_app _ _ _ Ht). unfold cycle_events, loop_events.
  set (v := Z.b2z (primask m)). set (w := map EvExec workload).
  assert (Hled : forall b, is_gpio LED b (EvGpio LED b) = true).
  { intros b. cbn. rewrite Z.eqb_refl. now destruct b. }
  repeat split.
  - apply (happens_before_split _ _ EvCPSID (EvGpio LED true)
             [EvMRS v] []
             (EvGpio 0 true :: w ++ [EvGpio 0 false; EvGpio LED false; EvMSR v]));
      [reflexivity | apply Hled].
  - apply (happens_before_split _ _ EvCPSID (EvGpio 0 true)
             [EvMRS v] [EvGpio LED true]
             (w ++ [EvGpio 0 false; EvGpio LED false; EvMSR v]));
      reflexivity.
  - replace (([EvMRS v; EvCPSID] ++
              ([EvGpio LED true; EvGpio 0 true] ++
               w ++ [EvGpio 0 false; EvGpio LED false]) ++ [EvMSR v]))
      with (([EvMRS v; EvCPSID; EvGpio LED true; EvGpio 0 true] ++ w) ++
            EvGpio 0 false :: [EvGpio LED false] ++ EvMSR v :: [])
      by (cbn; rewrite <- ?app_assoc; reflexivity).
    apply happens_before_split; reflexivity.
  - replace (([EvMRS v; EvCPSID] ++
              ([EvGpio LED true; EvGpio 0 true] ++
               w ++ [EvGpio 0 false; EvGpio LED false]) ++ [EvMSR v]))
      with (([EvMRS v; EvCPSID; EvGpio LED true; EvGpio 0 true] ++ w ++
             [EvGpio 0 false]) ++
            EvGpio LED false :: [] ++ EvMSR v :: [])
      by (cbn; rewrite <- ?app_assoc; reflexivity).
    apply happens_before_split; [apply Hled | reflexivity].
Qed.

(** C6: one measurement executes exactly one save (MRS then CPSID) and
    exactly one restore (MSR); the value written back is the snapshot the
    save returned; interrupts are masked in between; and PRIMASK after the
    measurement, and after any number of measurements, is what it was
    before. *)
Theorem C6_interrupt_mask_restored
        (line : string) (cin : list string) (m : machine) :
  fst (save_and_disable_interrupts m) = Z.b2z (primask m) /\
  primask (snd (save_and_disable_interrupts m)) = true /\
  filter is_irq (new_events m (snd (measurement LED line m))) =
    [EvMRS (Z.b2z (primask m)); EvCPSID; EvMSR (Z.b2z (primask m))] /\
  primask (snd (measurement LED line m)) = primask m /\
  primask (snd (main_loop LED cin m)) = primask m /\
  filter is_irq (new_events m (snd (main_loop LED cin m))) =
    List.concat
      (repeat [EvMRS (Z.b2z (primask m)); EvCPSID; EvMSR (Z.b2z (primask m))]
              (List.length cin)).
Proof.
  destruct (measurement_spec line m) as (Ht & _ & Hp & _).
  destruct (main_loop_spec cin m) as (_ & Hp' & Ht').
  assert (Hc : forall v, filter is_irq (cycle_events v) =
                         [EvMRS v; EvCPSID; EvMSR v]).
  { intros v. unfold cycle_events, loop_events.
    rewrite !filter_app, filter_irq_exec. reflexivity. }
  repeat split; try reflexivity; try assumption.
  - rewrite (new_events_app _ _ _ Ht). apply Hc.
  - rewrite (new_events_app _ _ _ Ht'). clear Ht Ht' Hp Hp'.
    induction cin as [|l cin IH]; [reflexivity|].
    cbn [map List.concat List.length repeat].
    rewrite filter_app, Hc, IH. reflexivity.
Qed.

(** C7: the trigger edges and workload instructions of a measurement occur
    in the order LED high, GPIO 0 high, the 258 instructions of the
    workload (load zero, 256 increments, store), GPIO 0 low, LED low. *)
Theorem C7_edge_order (line : string) (m : machine) :
  filter is_edge_or_exec (new_events m (snd (measurement LED line m))) =
    EvGpio LED true :: EvGpio 0 true ::
    EvExec (LDR_lit r0 0) :: repeat (EvExec (ADD_imm r0 r0 1)) 256 ++
    [EvExec (STR_cnt r0); EvGpio 0 false; EvGpio LED false].
Proof.
  destruct (measurement_spec line m) as (Ht & _).
  rewrite (new_events_app _ _ _ Ht). unfold cycle_events, loop_events.
  rewrite !filter_app, filter_edge_exec. reflexivity.
Qed.

(** C8: K copies of a command line produce K identical reply lines; the
    reply to a line is the same after any sequence of earlier commands,
    from any machine state and for any line content, and the counted
    workload run again in the state a measurement leaves returns 256
    again: r0 is reloaded with zero at the start of every cycle. *)
Theorem C8_repeated_commands
        (K : nat) (line line' : string) (cin : list string) (m m' : machine) :
  cout (snd (main_loop LED (repeat line K) m)) =
    (cout m ++ String.concat "" (repeat (reply 256 ++ nl) K))%string /\
  cout (snd (main_loop LED (cin ++ [line]) m)) =
    (cout (snd (main_loop LED cin m)) ++ reply 256 ++ nl)%string /\
  cout (snd (measurement LED line' m')) = (cout m' ++ reply 256 ++ nl)%string /\
  fst (unrolled_loop LED (snd (measurement LED line m))) = 256.
Proof.
  destruct (main_loop_spec (repeat line K) m) as (Hk & _).
  rewrite map_const_repeat, repeat_length in Hk.
  destruct (measurement_spec line' m') as (_ & Hco & _).
  destruct (unrolled_loop_spec (snd (measurement LED line m))) as (Hu & _).
  repeat split; try assumption.
  rewrite main_loop_app.
  change (main_loop LED [line]) with (measurement LED line ;; ret tt).
  rewrite seq_ret_run.
  destruct (measurement_spec line (snd (main_loop LED cin m))) as (_ & H & _).
  exact H.
Qed.

(** ** Further properties of the measurement loop *)

Lemma main_loop_cons (line : string) (cin : list string) (m : machine) :
  main_loop LED (line :: cin) m =
  main_loop LED cin (snd (measurement LED line m)).
Proof. cbn [main_loop]. apply seq_run. Qed.

Lemma main_loop_cons_state (line : string) (cin : list string) (m : machine) :
  let m' := snd (main_loop LED (line :: cin) m) in
  forall p, gpio m' p = if (p =? LED) || (p =? 0) then false else gpio m p.
Proof.
  revert line m. induction cin as [|l cin IH]; intros line m; cbn zeta.
  - change (main_loop LED [line]) with (measurement LED line ;; ret tt).
    rewrite seq_ret_run.
    destruct (measurement_spec line m) as (_ & _ & _ & Hl & Hz & Hg).
    intros p. destruct (Z.eqb_spec p LED) as [->|H1]; [exact Hl|].
    destruct (Z.eqb_spec p 0) as [->|H2]; [exact Hz|]. cbn [orb]. auto.
  - rewrite main_loop_cons.
    destruct (measurement_spec line m) as (_ & _ & _ & Hl & Hz & Hg).
    pose proof (IH l (snd (measurement LED line m))) as IHg. cbn zeta in IHg.
    intros p. rewrite IHg.
    destruct (Z.eqb_spec p LED) as [->|H1]; [reflexivity|].
    destruct (Z.eqb_spec p 0) as [->|H2]; [reflexivity|]. cbn [orb]. auto.
Qed.


(** X2: after any non-empty sequence of commands the LED pin and GPIO 0
    are low, whatever their level before, and no other GPIO has changed. *)
Theorem X2_trigger_pins_low_afterwards
        (line : string) (cin : list string) (m : machine) (p : Z) :
  gpio (snd (main_loop LED (line :: cin) m)) p =
  if (p =? LED) || (p =? 0) then false else gpio m p.
Proof. apply main_loop_cons_state. Qed.

(** X3: take the state reached once interrupts are saved and disabled,
    both trigger pins are raised and the first [k] instructions of the
    workload have run, for any [k].  [unrolled_loop] continues from it with
    the remaining instructions and the two falling edges, and in it
    interrupts are masked and both trigger pins are high: the whole
    workload runs inside the masked, triggered window. *)
Theorem X3_workload_runs_masked_and_triggered (k : nat) (m : machine) :
  let m1 := snd (save_and_disable_interrupts m) in
  let m2 := snd ((gpio_put LED true ;; gpio_put 0 true) m1) in
  let r := asm_volatile (firstn k workload) 0 m2 in
  unrolled_loop LED m1 =
    (counter <- asm_volatile (skipn k workload) (fst r) ;;
     gpio_put 0 false ;; gpio_put LED false ;; ret (to_int counter)) (snd r) /\
  primask (snd r) = true /\
  gpio (snd r) LED = true /\
  gpio (snd r) 0 = true.
Proof.
  cbv zeta.
  generalize (snd (save_and_disable_interrupts m)),
             (eq_refl : primask (snd (save_and_disable_interrupts m)) = true).
  intros m1 Hp1.
  rewrite seq_run, !gpio_put_run. cbn [fst snd].
  match goal with |- context [asm_volatile (firstn k workload) 0 ?M] =>
    set (m2 := M)
  end.
  destruct (asm_volatile_frame (firstn k workload) 0 m2) as (Hp & Hg & _).
  split; [|split; [|split]].
  - unfold unrolled_loop.
    rewrite bind_run, gpio_put_run; cbv beta; cbn [fst snd].
    rewrite bind_run, gpio_put_run; cbv beta; cbn [fst snd].
    fold m2. rewrite <- (firstn_skipn k workload) at 1.
    rewrite !bind_run, asm_volatile_app. reflexivity.
  - rewrite Hp. exact Hp1.
  - rewrite Hg. subst m2. cbn [gpio]. rewrite Z.eqb_refl.
    destruct (LED =? 0); reflexivity.
  - rewrite Hg. subst m2. cbn [gpio]. reflexivity.
Qed.

Lemma dec_negative (p : positive) :
  exists t, dec (Zneg p) = String "-" t.
Proof. unfold dec. cbn. eexists. reflexivity. Qed.

(** X4: the counter is returned and printed as a signed int.  A 32-bit
    counter value below 2^31 is printed as its decimal numeral and the
    reply matches ^XXX([0-9]+)YYY\1ZZZ$ with that numeral captured; a value
    from 2^31 on is printed with a minus sign and the reply does not
    match. *)
Theorem X4_reply_matches_iff_below_2_31 (u : Z) :
  match_reply (reply (to_int u)) =
  if wrap32 u <? 2 ^ 31 then Some (dec (wrap32 u)) else None.
Proof.
  unfold to_int.
  assert (Hu : 0 <= wrap32 u < 2 ^ 32)
    by (unfold wrap32; apply Z.mod_pos_bound; lia).
  destruct (Z.ltb_spec (wrap32 u) (2 ^ 31)) as [Hlt|Hge].
  - rewrite <- (Z2N.id (wrap32 u)) by lia. apply match_reply_nonneg.
  - destruct (wrap32 u - 2 ^ 32) as [|q|q] eqn:E; try lia.
    destruct (dec_negative q) as (t & Ht).
    unfold reply. rewrite Ht. reflexivity.
Qed.

(** X13: save/restore pairs nest.  A second
    save_and_disable_interrupts inside a critical section returns 1 and
    leaves interrupts masked; restoring its snapshot keeps them masked;
    restoring the outer snapshot then gives back the mask state from
    before the outer save.  Pins and output are not touched. *)
Theorem X13_save_restore_nest (m : machine) :
  let r1 := save_and_disable_interrupts m in
  let r2 := save_and_disable_interrupts (snd r1) in
  let m3 := snd (restore_interrupts (fst r2) (snd r2)) in
  let m4 := snd (restore_interrupts (fst r1) m3) in
  fst r2 = 1 /\
  primask (snd r2) = true /\
  primask m3 = true /\
  primask m4 = primask m /\
  gpio m4 = gpio m /\ cout m4 = cout m /\
  trace m4 =
    trace m ++ [EvMRS (Z.b2z (primask m)); EvCPSID; EvMRS 1; EvCPSID;
                EvMSR 1; EvMSR (Z.b2z (primask m))].
Proof.
  cbn. rewrite b2z_odd, <- !app_assoc. repeat split.
Qed.

End RP2040_Properties.


(** * Properties of the RP2040 start-up *)

Section RP2040_Boot_Properties.
Import RP2040 RP2040_Boot.

Variable LED : Z.

Lemma lift_run {A} (c : M machine A) (b : board) :
  lift c b =
  (fst (c (core b)),
   mkBoard (snd (c (core b))) (clock_ms b)
           (blog b ++ map BCore (new_events (core b) (snd (c (core b)))))).
Proof. unfold lift. destruct (c (core b)); reflexivity. Qed.

Lemma sdk_run (c : call) (b : board) :
  sdk c b = (tt, mkBoard (core b) (clock_ms b) (blog b ++ [BCall c])).
Proof. reflexivity. Qed.

Lemma sleep_ms_run (ms : Z) (b : board) :
  sleep_ms ms b =
  (tt, mkBoard (core b) (clock_ms b + ms) (blog b ++ [BCall (SleepMs ms)])).
Proof. reflexivity. Qed.

Lemma new_events_same (m m' : machine) :
  trace m' = trace m -> new_events m m' = [].
Proof. intros H. apply new_events_app. now rewrite app_nil_r. Qed.

Lemma lift_gpio_put_run (pin : Z) (level : bool) (b : board) :
  lift (gpio_put pin level) b =
  (tt, mkBoard (mkMachine (regs (core b)) (primask (core b))
                          (fun p => if p =? pin then level else gpio (core b) p)
                          (cout (core b))
                          (trace (core b) ++ [EvGpio pin level]))
               (clock_ms b)
               (blog b ++ [BCore (EvGpio pin level)])).
Proof.
  rewrite lift_run, gpio_put_run. cbn [fst snd].
  rewrite (new_events_app _ _ [EvGpio pin level]) by reflexivity.
  reflexivity.
Qed.

Lemma lift_print_run (s : string) (b : board) :
  lift (print s) b =
  (tt, mkBoard (mkMachine (regs (core b)) (primask (core b)) (gpio (core b))
                          (cout (core b) ++ s)%string (trace (core b)))
               (clock_ms b) (blog b)).
Proof.
  rewrite lift_run. cbn [print modify fst snd].
  rewrite new_events_same by reflexivity. cbn [map].
  now rewrite app_nil_r.
Qed.

(** The waiting loop after [k] negative answers, followed either by no
    further answer ([tail = []]) or by a positive one. *)
Lemma wait_usb_spec (k : nat) (tail : list bool) (b : board) :
  tail = [] \/ (exists rest, tail = true :: rest) ->
  let r := wait_usb LED (repeat false k ++ tail) b in
  fst r = (match tail with [] => false | _ => true end) /\
  cout (core (snd r)) = cout (core b) /\
  primask (core (snd r)) = primask (core b) /\
  (forall p, gpio (core (snd r)) p =
             if (p =? LED) && negb (Nat.eqb k 0) then false
             else gpio (core b) p) /\
  trace (core (snd r)) =
    trace (core b) ++
    List.concat (repeat [EvGpio LED true; EvGpio LED false] k) /\
  clock_ms (snd r) = clock_ms b + 500 * Z.of_nat k /\
  blog (snd r) =
    blog b ++ List.concat (repeat (blink_period LED) k) ++
    (match tail with [] => [] | _ => [BCall (StdioUsbConnected true)] end).
Proof.
  intros Htail. revert b. induction k as [|k IH]; intros b; cbn zeta.
  - cbn [repeat app List.concat].
    destruct Htail as [->|(rest & ->)].
    + cbn. rewrite !app_nil_r, Z.add_0_r. repeat split.
      intros p. now rewrite andb_false_r.
    + cbn [wait_usb]. rewrite seq_run, sdk_run. cbn [fst snd ret core
        clock_ms blog]. rewrite app_nil_r, Z.add_0_r. repeat split.
      intros p. now rewrite andb_false_r.
  - cbn [repeat app wait_usb List.concat].
    rewrite seq_run, sdk_run; cbn [snd].
    rewrite seq_run, lift_gpio_put_run; cbn [snd].
    rewrite seq_run, sleep_ms_run; cbn [snd].
    rewrite seq_run, lift_gpio_put_run; cbn [snd].
    rewrite seq_run, sleep_ms_run; cbn [snd].
    cbn [core clock_ms blog regs primask gpio cout trace].
    match goal with |- context [wait_usb LED _ ?B] =>
      destruct (IH B) as (Hf & Hc & Hp & Hg & Ht & Hk & Hb)
    end.
    cbn [core clock_ms blog regs primask gpio cout trace] in Hc, Hp, Hg, Ht, Hk, Hb.
    rewrite Hf, Hc, Hp, Ht, Hk, Hb.
    repeat split.
    + intros p. rewrite Hg. cbn [Nat.eqb negb]. rewrite andb_true_r.
      destruct (p =? LED); [now destruct (negb (Nat.eqb k 0))|reflexivity].
    + now rewrite <- !app_assoc.
    + lia.
    + unfold blink_period. now rewrite <- !app_assoc.
Qed.

Lemma filter_blinks (k : nat) :
  filter is_measurement_event (List.concat (repeat (blink_period LED) k)) = [].
Proof. induction k as [|k IH]; [reflexivity|]. cbn. exact IH. Qed.

(** The SDK calls of main before the waiting loop. *)
Let setup_calls : list bevent :=
  [ BCall StdioInitAll; BCall (GpioInit LED); BCall (GpioSetDirOut LED);
    BCall (GpioInit 0); BCall (GpioSetDirOut 0); BCall StdioUsbInit ].

Lemma main_run (polls : list bool) (cin : list string) (b : board) :
  main LED polls cin b =
  (connected <- wait_usb LED polls ;;
   if connected then
     lift (print ("RP2040 Test Program" ++ nl)) ;;
     lift (print ("send something to start the counter." ++ nl)) ;;
     lift (main_loop LED cin)
   else ret tt)
    (mkBoard (core b) (clock_ms b) (blog b ++ setup_calls)).
Proof.
  unfold main. rewrite !seq_run, !sdk_run. cbn [snd core clock_ms blog].
  unfold setup_calls. rewrite <- !app_assoc. reflexivity.
Qed.

(** X5: as long as stdio_usb_connected() has answered no, [k] times, the
    program has printed nothing and measured nothing, whatever lines are
    waiting on the input: it has made its six set-up calls, then [k]
    times polled, raised the LED, slept 250 ms, lowered the LED and slept
    250 ms, so that 500 ms have passed per negative answer. *)
Theorem X5_no_banner_before_usb (k : nat) (cin : list string) (b : board) :
  let b' := snd (main LED (repeat false k) cin b) in
  cout (core b') = cout (core b) /\
  clock_ms b' = clock_ms b + 500 * Z.of_nat k /\
  blog b' =
    blog b ++
    [ BCall StdioInitAll; BCall (GpioInit LED); BCall (GpioSetDirOut LED);
      BCall (GpioInit 0); BCall (GpioSetDirOut 0); BCall StdioUsbInit ] ++
    List.concat
      (repeat [ BCall (StdioUsbConnected false);
                BCore (EvGpio LED true); BCall (SleepMs 250);
                BCore (EvGpio LED false); BCall (SleepMs 250) ] k) /\
  filter is_measurement_event (skipn (List.length (blog b)) (blog b')) = [].
Proof.
  cbv zeta. rewrite main_run, bind_run.
  rewrite <- (app_nil_r (repeat false k)).
  match goal with |- context [wait_usb LED _ ?B] =>
    destruct (wait_usb_spec k [] B (or_introl eq_refl))
      as (Hf & Hc & _ & _ & _ & Hk & Hb)
  end.
  cbn [core clock_ms blog] in Hc, Hk, Hb.
  rewrite Hf. unfold ret at 1 2 3 4. cbn [snd].
  rewrite Hc, Hk, Hb, app_nil_r, <- app_assoc.
  repeat split.
  rewrite skipn_app, skipn_all, Nat.sub_diag. cbn [skipn app].
  rewrite filter_app, filter_blinks. reflexivity.
Qed.

(** X6: once stdio_usb_connected() answers yes, after [k] negative
    answers, the program prints the banner and the prompt, in that order
    and once, and then one reply per input line; later answers of the poll
    are never asked for.  After the positive answer the log holds
    measurement cycles only: no further poll and no sleep. *)
Theorem X6_banner_then_replies
        (k : nat) (rest : list bool) (cin : list string) (b : board) :
  let b' := snd (main LED (repeat false k ++ true :: rest) cin b) in
  let v := Z.b2z (primask (core b)) in
  cout (core b') =
    (cout (core b) ++ ("RP2040 Test Program" ++ nl) ++
     ("send something to start the counter." ++ nl) ++
     String.concat "" (repeat (reply 256 ++ nl) (List.length cin)))%string /\
  clock_ms b' = clock_ms b + 500 * Z.of_nat k /\
  blog b' =
    blog b ++
    [ BCall StdioInitAll; BCall (GpioInit LED); BCall (GpioSetDirOut LED);
      BCall (GpioInit 0); BCall (GpioSetDirOut 0); BCall StdioUsbInit ] ++
    List.concat (repeat (blink_period LED) k) ++
    [ BCall (StdioUsbConnected true) ] ++
    map BCore
      (List.concat
         (repeat ([EvMRS v; EvCPSID] ++
                  ([EvGpio LED true; EvGpio 0 true] ++ map EvExec workload ++
                   [EvGpio 0 false; EvGpio LED false]) ++ [EvMSR v])
                 (List.length cin))).
Proof.
  cbv zeta. rewrite main_run, bind_run.
  match goal with |- context [wait_usb LED _ ?B] =>
    destruct (wait_usb_spec k (true :: rest) B
                (or_intror (ex_intro _ rest eq_refl)))
      as (Hf & Hc & Hp & _ & _ & Hk & Hb);
    destruct (wait_usb LED (repeat false k ++ true :: rest) B) as [c bw]
  end.
  cbn [fst snd core clock_ms blog] in Hf, Hc, Hp, Hk, Hb. subst c.
  cbn [fst snd]. rewrite seq_run, lift_print_run; cbn [snd].
  rewrite seq_run, lift_print_run; cbn [snd].
  rewrite lift_run; cbn [snd core clock_ms blog].
  match goal with |- context [main_loop LED cin ?M] =>
    destruct (main_loop_spec LED cin M) as (Hlc & _ & Hlt);
    rewrite (new_events_app M _ _ Hlt), Hlc
  end.
  cbn [cout primask trace]. rewrite Hc, Hp, Hk, Hb.
  rewrite !map_const_repeat, !string_app_assoc, <- !app_assoc.
  repeat split.
Qed.

End RP2040_Boot_Properties.


(** * Properties of the STM8L bootloader-path probe *)

Section STM8L_Properties.
Import STM8L.

Lemma run_asm_S (fuel : nat) (code : list line) (pc : nat) (s : cpu) :
  run_asm (S fuel) code pc s =
  match nth_error code pc with
  | None => Some s
  | Some (L l) => run_asm fuel code (S pc) (log (EvLabel l) s)
  | Some (I i) =>
      match exec code i pc s with
      | Some (pc', s') => run_asm fuel code pc' s'
      | None => None
      end
  end.
Proof. reflexivity. Qed.

Lemma run_asm_end (fuel : nat) (code : list line) (pc : nat) (s : cpu) :
  nth_error code pc = None -> run_asm fuel code pc s = Some s.
Proof. intros H. destruct fuel; cbn; rewrite H; reflexivity. Qed.

(** One step of the interpreter on a block given by name: look the line
    up, execute it, resolve a jump target. *)
Ltac asm_step :=
  rewrite run_asm_S;
  match goal with
  | |- context [nth_error ?code ?pc] =>
      let r := eval cbv in (nth_error code pc) in
      change (nth_error code pc) with r
  end;
  cbv beta iota; cbv [exec];
  repeat match goal with
  | |- context [find_label ?l ?code] =>
      let r := eval cbv in (find_label l code) in
      change (find_label l code) with r
  end;
  cbv [option_map read8 log store]; cbn [ccZ A mem ccI trace].

Ltac asm_finish :=
  rewrite run_asm_end by reflexivity;
  eexists; split; [reflexivity|];
  cbv [read8 log store]; cbn [trace mem ccI orb negb];
  rewrite <- !app_assoc; repeat split.

Ltac asm_branch :=
  match goal with
  | |- context [if ?c then _ else _] => destruct c eqn:?
  end.

(** Events of the decision tree when 0x8000 holds [b], 0x480b holds [o]
    and the port B output register holds [x] on entry. *)
Let tree_events (b o x : Z) : list event :=
  [EvSim; EvLd 0x8000] ++
  (if armed b then [EvLabel bootl_check; EvLd 0x480b] else []) ++
  (if negb (armed b) || (o =? 0x55)
   then [EvLabel rdp_check; EvStore 0x5005 (or8 x 16)]
   else [EvLabel enter_app; EvStore 0x5005 (or8 x 32)]) ++
  [EvLabel asm_done].

Lemma decision_tree_run (s : cpu) :
  let b := read8 s 0x8000 in
  let o := read8 s 0x480b in
  let mask := if negb (armed b) || (o =? 0x55) then 16 else 32 in
  exists s',
    run_asm (List.length decision_tree) decision_tree 0 s = Some s' /\
    trace s' = trace s ++ tree_events b o (mem s 0x5005) /\
    (forall a, mem s' a =
               if a =? 0x5005 then or8 (mem s 0x5005) mask else mem s a) /\
    ccI s' = true.
Proof.
  cbv zeta. unfold tree_events, armed.
  change (List.length decision_tree) with 19%nat.
  do 3 asm_step. asm_step. asm_branch.
  - (* 0x82: bootl_check *)
    do 3 asm_step. asm_step. asm_branch.
    + do 2 asm_step. asm_step. asm_step. asm_step.
      asm_finish.
    + do 2 asm_step. asm_step. asm_step. asm_step.
      asm_finish.
  - do 2 asm_step. asm_branch.
    + (* 0xac: bootl_check *)
      do 3 asm_step. asm_step. asm_branch.
      * do 2 asm_step. asm_step. asm_step. asm_step.
        asm_finish.
      * do 2 asm_step. asm_step. asm_step. asm_step.
        asm_finish.
    + (* neither: rdp_check directly *)
      do 2 asm_step. do 2 asm_step. asm_step. asm_step.
      asm_finish.
Qed.

Lemma always_success_run (s : cpu) :
  run_asm (List.length always_success_asm) always_success_asm 0 s =
  Some (store 0x5005 (Z.lor (read8 s 0x5005) 16) s).
Proof.
  change (List.length always_success_asm) with 1%nat.
  asm_step. rewrite run_asm_end by reflexivity. reflexivity.
Qed.

Lemma trace_store (a v : Z) (s : cpu) :
  trace (store a v s) = trace s ++ [EvStore a (v mod 256)].
Proof. reflexivity. Qed.

Lemma mem_store (a v : Z) (s : cpu) (x : Z) :
  mem (store a v s) x = if x =? a then v mod 256 else mem s x.
Proof. reflexivity. Qed.

Lemma ccI_store (a v : Z) (s : cpu) : ccI (store a v s) = ccI s.
Proof. reflexivity. Qed.

Lemma trace_or_assign (a k : Z) (s : cpu) :
  trace (or_assign a k s) = trace s ++ [EvStore a (or8 (mem s a) k)].
Proof. reflexivity. Qed.

Lemma mem_or_assign (a k : Z) (s : cpu) (x : Z) :
  mem (or_assign a k s) x = if x =? a then or8 (mem s a) k else mem s x.
Proof. reflexivity. Qed.

Lemma testbit_mod256 (v i : Z) :
  0 <= i < 8 -> Z.testbit (v mod 256) i = Z.testbit v i.
Proof.
  intros H. change 256 with (2 ^ 8). apply Z.mod_pow2_bits_low. lia.
Qed.

Lemma testbit_or8 (v mask i : Z) :
  0 <= i < 8 ->
  Z.testbit (or8 v mask) i = Z.testbit v i || Z.testbit mask i.
Proof.
  intros H. unfold or8.
  now rewrite testbit_mod256, Z.lor_spec, testbit_mod256 by exact H.
Qed.

Lemma or8_byte (v mask : Z) : or8 v mask mod 256 = or8 v mask.
Proof. unfold or8. apply Z.mod_mod. lia. Qed.

(** An 8-bit OR with a byte mask is the OR of the byte read. *)
Lemma or8_lor (v mask : Z) :
  0 <= mask < 256 -> or8 v mask = Z.lor (v mod 256) mask.
Proof.
  intros Hm. apply Z.bits_inj'. intros n Hn.
  destruct (Z.ltb_spec n 8).
  - now rewrite testbit_or8, Z.lor_spec, testbit_mod256 by lia.
  - unfold or8. change 256 with (2 ^ 8).
    rewrite Z.mod_pow2_bits_high, Z.lor_spec, Z.mod_pow2_bits_high by lia.
    rewrite <- (Z.mod_small mask (2 ^ 8)) by (change (2 ^ 8) with 256; lia).
    now rewrite Z.mod_pow2_bits_high by lia.
Qed.

Lemma or8_or8 (v a b : Z) :
  0 <= a < 256 -> or8 (or8 v a) b = or8 v (Z.lor a b).
Proof.
  intros Ha. unfold or8 at 1.
  rewrite or8_byte, (or8_lor v a Ha), <- Z.lor_assoc. reflexivity.
Qed.

Variables CLK_PCKENR1 PB_DDR PB_CR1 PB_CR2 PB_ODR : Z.
Hypothesis Hh : header_ok CLK_PCKENR1 PB_DDR PB_CR1 PB_CR2 PB_ODR.

(** Decide the address comparisons the header settles. *)
Ltac resolve_eqb :=
  repeat match goal with
  | |- context [?x =? ?y] =>
      first [ replace (x =? y) with true by (symmetry; apply Z.eqb_eq; lia)
            | replace (x =? y) with false by (symmetry; apply Z.eqb_neq; lia) ]
  end.

Let setup_events (m : Z -> Z) : list event :=
  [ EvStore CLK_PCKENR1 255;
    EvStore PB_DDR (or8 (m PB_DDR) 50);
    EvStore PB_CR1 (or8 (m PB_CR1) 50);
    EvStore PB_CR2 (or8 (m PB_CR2) 50);
    EvStore PB_ODR (or8 (m PB_ODR) 2) ].

Lemma main_spec (ALWAYS_SUCCESS : bool) (m : Z -> Z) (a : Z) (z i : bool) :
  let b := m 0x8000 mod 256 in
  let o := m 0x480b mod 256 in
  let x1 := or8 (m PB_ODR) 2 in
  let x2 := or8 x1 (if negb (armed b) || (o =? 0x55) then 16 else 32) in
  exists s,
    main CLK_PCKENR1 PB_DDR PB_CR1 PB_CR2 PB_ODR ALWAYS_SUCCESS (boot m a z i)
      = Some s /\
    trace s = setup_events m ++ tree_events b o x1 ++
              (if ALWAYS_SUCCESS then [EvStore 0x5005 (or8 x2 16)] else []) /\
    mem s PB_ODR = (if ALWAYS_SUCCESS then or8 x2 16 else x2) /\
    mem s PB_DDR = or8 (m PB_DDR) 50 /\
    mem s PB_CR1 = or8 (m PB_CR1) 50 /\
    mem s PB_CR2 = or8 (m PB_CR2) 50 /\
    ccI s = true.
Proof.
  cbv zeta. unfold main, setup_events.
  destruct Hh as (HO & HC & HD & H1 & H2 & Hne). subst PB_ODR.
  match goal with |- context [run_asm _ decision_tree 0 ?S5] =>
    destruct (decision_tree_run S5) as (s' & Hrun & Htr & Hmem & HI);
    rewrite Hrun; clear Hrun
  end.
  cbv zeta in Htr, Hmem.
  pose proof (Hmem 0x5005) as MO. pose proof (Hmem PB_DDR) as MD.
  pose proof (Hmem PB_CR1) as M1. pose proof (Hmem PB_CR2) as M2.
  clear Hmem. revert Htr MO MD M1 M2. unfold read8.
  repeat (rewrite ?trace_or_assign, ?trace_store, ?mem_or_assign, ?mem_store;
          resolve_eqb).
  cbn [boot mem trace app].
  change (or8 (m 20485) TRIG_PIN) with (or8 (m 20485) 2).
  change (Z.lor (Z.lor TRIG_PIN SUCCESS_PIN) EXPECTED_PIN) with 50.
  change (255 mod 256) with 255.
  intros Htr MO MD M1 M2.
  destruct ALWAYS_SUCCESS.
  - rewrite always_success_run. eexists; split; [reflexivity|].
    rewrite trace_store, !mem_store, ccI_store. resolve_eqb. unfold read8.
    change (Z.lor (mem s' 20485 mod 256) 16 mod 256)
      with (or8 (mem s' 20485) 16).
    rewrite Htr, MO, MD, M1, M2.
    repeat split; try reflexivity. exact HI.
  - exists s'. split; [reflexivity|].
    rewrite Htr, MO, MD, M1, M2, ?app_nil_r.
    repeat split; try reflexivity. exact HI.
Qed.

Ltac pin_bits :=
  unfold pin, read8, boot; cbn [mem];
  rewrite ?testbit_mod256 by lia;
  rewrite ?testbit_or8 by lia;
  rewrite ?testbit_mod256 by lia.

(** C4: in the default build the probe always reaches its idle loop; it
    loads 0x8000; it passes through bootl_check, and loads 0x480b, exactly
    when the byte at 0x8000 is 0x82 or 0xAC; it passes through rdp_check
    when that byte is neither, or when the byte at 0x480b is 0x55, and
    through enter_app otherwise; rdp_check sets PB4 and enter_app sets PB5,
    the other of the two pins keeping its level.  Hence (0xAC, 0x55) and
    0x00 give PB4 high with PB5 as at reset, and (0xAC, 0x00) gives PB5
    high with PB4 as at reset. *)
Theorem C4_branch_decision (m : Z -> Z) (a : Z) (z i : bool) :
  let s0 := boot m a z i in
  let b := read8 s0 0x8000 in
  let o := read8 s0 0x480b in
  exists s,
    main CLK_PCKENR1 PB_DDR PB_CR1 PB_CR2 PB_ODR false s0 = Some s /\
    loaded 0x8000 s = true /\
    reached bootl_check s = armed b /\
    loaded 0x480b s = armed b /\
    reached rdp_check s = negb (armed b) || (o =? 0x55) /\
    reached enter_app s = armed b && negb (o =? 0x55) /\
    pin 4 (read8 s PB_ODR) = pin 4 (read8 s0 PB_ODR) || reached rdp_check s /\
    pin 5 (read8 s PB_ODR) = pin 5 (read8 s0 PB_ODR) || reached enter_app s /\
    (b = 0xac -> o = 0x55 ->
     pin 4 (read8 s PB_ODR) = true /\
     pin 5 (read8 s PB_ODR) = pin 5 (read8 s0 PB_ODR)) /\
    (b = 0xac -> o = 0x00 ->
     pin 5 (read8 s PB_ODR) = true /\
     pin 4 (read8 s PB_ODR) = pin 4 (read8 s0 PB_ODR)) /\
    (b = 0x00 ->
     pin 4 (read8 s PB_ODR) = true /\
     pin 5 (read8 s PB_ODR) = pin 5 (read8 s0 PB_ODR)).
Proof.
  cbv zeta.
  destruct (main_spec false m a z i) as (s & Hrun & Htr & HO & _).
  cbv zeta in Htr, HO.
  exists s. split; [exact Hrun|].
  unfold reached, loaded. rewrite Htr. unfold setup_events, tree_events.
  unfold pin, read8, boot; cbn [mem]. rewrite HO.
  pin_bits.
  destruct (armed (m 0x8000 mod 256)) eqn:Ea;
    destruct (m 0x480b mod 256 =? 0x55) eqn:Eo;
    cbn [negb orb andb app existsb label_eqb];
    rewrite ?orb_false_r;
    repeat split; try reflexivity; intros;
    repeat match goal with
    | H : m _ mod 256 = _ |- _ => rewrite H in *
    end; try discriminate; try reflexivity; apply orb_true_r.
Qed.

(** C5: in the default build, starting with PB1, PB4 and PB5 low, PB1
    rises exactly once, at the fifth store of the program; PB4 and PB5
    together rise at most once (in fact exactly once); and that single
    rise, like every [ld A, addr] of the run, comes after the rise of
    PB1. *)
Theorem C5_one_result_pin_after_trigger (m : Z -> Z) (a : Z) (z i : bool) :
  Z.testbit (m PB_ODR) 1 = false ->
  Z.testbit (m PB_ODR) 4 = false ->
  Z.testbit (m PB_ODR) 5 = false ->
  let s0 := boot m a z i in
  exists s,
    main CLK_PCKENR1 PB_DDR PB_CR1 PB_CR2 PB_ODR false s0 = Some s /\
    rising_edges PB_ODR 1 (read8 s0 PB_ODR) 0 (trace s) = [4%nat] /\
    (List.length (rising_edges PB_ODR 4 (read8 s0 PB_ODR) 0 (trace s) ++
                  rising_edges PB_ODR 5 (read8 s0 PB_ODR) 0 (trace s))
     = 1)%nat /\
    Forall (fun q => (4 < q)%nat)
           (rising_edges PB_ODR 4 (read8 s0 PB_ODR) 0 (trace s) ++
            rising_edges PB_ODR 5 (read8 s0 PB_ODR) 0 (trace s) ++
            ld_indices 0 (trace s)).
Proof.
  intros L1 L4 L5. cbv zeta.
  destruct (main_spec false m a z i) as (s & Hrun & Htr & _).
  cbv zeta in Htr.
  exists s. split; [exact Hrun|].
  rewrite Htr. unfold setup_events, tree_events.
  destruct Hh as (HO & HC & HD & H1 & H2 & Hne). subst PB_ODR.
  destruct (armed (m 0x8000 mod 256));
    destruct (m 0x480b mod 256 =? 0x55);
    cbn [negb orb app rising_edges ld_indices];
    resolve_eqb; pin_bits; rewrite ?L1, ?L4, ?L5;
    change (Z.testbit 2 1) with true; change (Z.testbit 2 4) with false;
    change (Z.testbit 2 5) with false; change (Z.testbit 16 1) with false;
    change (Z.testbit 16 4) with true; change (Z.testbit 16 5) with false;
    change (Z.testbit 32 1) with false; change (Z.testbit 32 4) with false;
    change (Z.testbit 32 5) with true;
    cbn [negb orb andb app List.length];
    (split; [reflexivity | split; [reflexivity|]]);
    repeat constructor.
Qed.

(** C9: built with ALWAYS_SUCCESS the probe always reaches its idle loop
    with PB4 high, for every memory content and whichever arm was taken;
    the run is the run of the default build followed by one more store to
    the port B output register, whose value has bit 4 set. *)
Theorem C9_always_success (m : Z -> Z) (a : Z) (z i : bool) :
  let s0 := boot m a z i in
  exists s s1 v,
    main CLK_PCKENR1 PB_DDR PB_CR1 PB_CR2 PB_ODR true s0 = Some s /\
    main CLK_PCKENR1 PB_DDR PB_CR1 PB_CR2 PB_ODR false s0 = Some s1 /\
    trace s = trace s1 ++ [EvStore PB_ODR v] /\
    pin 4 v = true /\
    read8 s PB_ODR = v /\
    pin 4 (read8 s PB_ODR) = true /\
    pin 1 (read8 s PB_ODR) = true.
Proof.
  cbv zeta.
  destruct (main_spec true m a z i) as (s & Hrun & Htr & HO & _).
  destruct (main_spec false m a z i) as (s1 & Hrun1 & Htr1 & _).
  cbv zeta in Htr, Htr1, HO.
  exists s, s1, (mem s PB_ODR).
  split; [exact Hrun|]. split; [exact Hrun1|].
  assert (E : 0x5005 = PB_ODR) by (symmetry; apply Hh).
  rewrite Htr, Htr1, app_nil_r, <- !app_assoc, HO, E.
  split; [reflexivity|].
  unfold pin, read8. rewrite ?HO.
  rewrite ?testbit_mod256, ?testbit_or8 by lia.
  repeat split.
  - apply orb_true_r.
  - apply or8_byte.
  - apply orb_true_r.
  - change (Z.testbit 2 1) with true. now rewrite !orb_true_r.
Qed.

(** C10: whatever the build and the memory contents, the program changes
    PB_DDR, PB_CR1 and PB_CR2 by an OR with the mask of PB1, PB4 and PB5
    (0x32) and PB_ODR by an OR with bits of that mask only, and bits 0, 2,
    3, 6 and 7 of the four registers are the same when the idle loop is
    entered as at reset. *)
Theorem C10_other_pins_untouched
        (ALWAYS_SUCCESS : bool) (m : Z -> Z) (a : Z) (z i : bool) :
  let s0 := boot m a z i in
  exists s,
    main CLK_PCKENR1 PB_DDR PB_CR1 PB_CR2 PB_ODR ALWAYS_SUCCESS s0 = Some s /\
    Z.lor (Z.lor TRIG_PIN SUCCESS_PIN) EXPECTED_PIN = 0x32 /\
    read8 s PB_DDR = Z.lor (read8 s0 PB_DDR) 0x32 /\
    read8 s PB_CR1 = Z.lor (read8 s0 PB_CR1) 0x32 /\
    read8 s PB_CR2 = Z.lor (read8 s0 PB_CR2) 0x32 /\
    (exists k, read8 s PB_ODR = Z.lor (read8 s0 PB_ODR) k /\
               Z.land k 0x32 = k) /\
    Forall (fun r =>
      Forall (fun bit =>
                Z.testbit (read8 s r) bit = Z.testbit (read8 s0 r) bit)
             [0; 2; 3; 6; 7])
      [PB_DDR; PB_CR1; PB_CR2; PB_ODR].
Proof.
  cbv zeta.
  destruct (main_spec ALWAYS_SUCCESS m a z i)
    as (s & Hrun & _ & HO & HD & H1 & H2 & _).
  cbv zeta in HO.
  exists s. split; [exact Hrun|]. split; [reflexivity|].
  assert (Hlor : forall v, or8 v 50 mod 256 = Z.lor (v mod 256) 50).
  { intros v. apply Z.bits_inj'. intros n Hn.
    destruct (Z.ltb_spec n 8).
    - now rewrite testbit_mod256, testbit_or8, Z.lor_spec, testbit_mod256
        by lia.
    - change 256 with (2 ^ 8).
      rewrite Z.mod_pow2_bits_high, Z.lor_spec, Z.mod_pow2_bits_high by lia.
      change 50 with (50 mod 2 ^ 8).
      now rewrite Z.mod_pow2_bits_high by lia. }
  assert (Hbit : forall c n,
            Z.testbit c n = false -> 0 <= n < 8 ->
            forall v, Z.testbit (or8 v c mod 256) n = Z.testbit (v mod 256) n).
  { intros c n Hc Hn v.
    now rewrite !testbit_mod256, testbit_or8, Hc, orb_false_r by exact Hn. }
  unfold read8 at 1 2 3 4 5 6. unfold boot at 1 2 3. cbn [mem].
  rewrite HD, H1, H2, !Hlor.
  split; [reflexivity|]. split; [reflexivity|]. split; [reflexivity|].
  split.
  { unfold read8, boot; cbn [mem]. rewrite HO.
    destruct ALWAYS_SUCCESS;
      destruct (negb (armed (m 32768 mod 256)) || (m 18443 mod 256 =? 85));
      rewrite !or8_or8 by (cbn; lia); rewrite or8_byte, or8_lor by (cbn; lia);
      eexists; split; reflexivity. }
  repeat constructor; unfold read8, boot; cbn [mem];
    rewrite ?HD, ?H1, ?H2, ?HO;
    try (apply Hbit; [reflexivity | lia]);
    destruct ALWAYS_SUCCESS;
    destruct (negb (armed (m 32768 mod 256)) || (m 18443 mod 256 =? 85));
    rewrite !testbit_mod256, !testbit_or8 by lia;
    rewrite ?orb_false_r; reflexivity.
Qed.

(** ** Further properties of the probe *)

Lemma main_mem (ALWAYS_SUCCESS : bool) (m : Z -> Z) (a : Z) (z i : bool)
      (s : cpu) (x : Z) :
  main CLK_PCKENR1 PB_DDR PB_CR1 PB_CR2 PB_ODR ALWAYS_SUCCESS (boot m a z i)
    = Some s ->
  x <> PB_ODR -> x <> PB_DDR -> x <> PB_CR1 -> x <> PB_CR2 ->
  mem s x = if x =? CLK_PCKENR1 then 255 else m x.
Proof.
  unfold main. intros Hrun X0 X1 X2 X3.
  destruct Hh as (HO & HC & HD & H1 & H2 & Hne). subst PB_ODR.
  revert Hrun.
  match goal with |- context [run_asm _ decision_tree 0 ?S5] =>
    destruct (decision_tree_run S5) as (s' & Hrun & _ & Hmem & _);
    rewrite Hrun; clear Hrun
  end.
  cbv zeta in Hmem. specialize (Hmem x). revert Hmem.
  repeat (rewrite ?mem_or_assign, ?mem_store; resolve_eqb).
  cbn [boot mem]. change (255 mod 256) with 255. intros Hmem.
  destruct ALWAYS_SUCCESS.
  - rewrite always_success_run. intros E. inversion E; subst s.
    rewrite mem_store. resolve_eqb. exact Hmem.
  - intros E. inversion E; subst s. exact Hmem.
Qed.

Lemma main_some (ALWAYS_SUCCESS : bool) (m : Z -> Z) (a : Z) (z i : bool)
      (s s' : cpu) :
  main CLK_PCKENR1 PB_DDR PB_CR1 PB_CR2 PB_ODR ALWAYS_SUCCESS (boot m a z i)
    = Some s ->
  main CLK_PCKENR1 PB_DDR PB_CR1 PB_CR2 PB_ODR ALWAYS_SUCCESS (boot m a z i)
    = Some s' ->
  s = s'.
Proof. intros H1 H2. rewrite H1 in H2. now inversion H2. Qed.

(** X7: in both builds and for every memory content, the first four
    stores of the program are CLK_PCKENR1 = 0xff and the configuration of
    PB_DDR, PB_CR1 and PB_CR2, each written with bits 1, 4 and 5 set;
    these registers are not written again, so PB1, PB4 and PB5 are
    push-pull fast outputs from then on, and every [ld A, addr] comes
    later. *)
Theorem X7_pins_configured_before_decision
        (ALWAYS_SUCCESS : bool) (m : Z -> Z) (a : Z) (z i : bool) :
  exists s v1 v2 v3 rest,
    main CLK_PCKENR1 PB_DDR PB_CR1 PB_CR2 PB_ODR ALWAYS_SUCCESS (boot m a z i)
      = Some s /\
    trace s = EvStore CLK_PCKENR1 0xff :: EvStore PB_DDR v1 ::
              EvStore PB_CR1 v2 :: EvStore PB_CR2 v3 :: rest /\
    Forall (fun v => Forall (fun bit => Z.testbit v bit = true) [1; 4; 5])
           [v1; v2; v3] /\
    existsb (fun e => is_store_to CLK_PCKENR1 e || is_store_to PB_DDR e ||
                      is_store_to PB_CR1 e || is_store_to PB_CR2 e) rest
      = false /\
    Forall (fun r => Forall (fun bit => Z.testbit (read8 s r) bit = true)
                            [1; 4; 5])
           [PB_DDR; PB_CR1; PB_CR2] /\
    read8 s CLK_PCKENR1 = 0xff /\
    Forall (fun q => (3 < q)%nat) (ld_indices 0 (trace s)).
Proof.
  destruct (main_spec ALWAYS_SUCCESS m a z i)
    as (s & Hrun & Htr & _ & HD & H1 & H2 & _).
  cbv zeta in Htr.
  pose proof (main_mem _ _ _ _ _ _ CLK_PCKENR1 Hrun) as HC.
  destruct Hh as (HO & HCr & HDr & H1r & H2r & Hne).
  rewrite Z.eqb_refl in HC. specialize (HC ltac:(lia) ltac:(lia) ltac:(lia)
                                           ltac:(lia)).
  exists s. do 4 eexists. split; [exact Hrun|].
  split; [rewrite Htr; unfold setup_events; reflexivity|].
  split.
  { repeat constructor; rewrite testbit_or8 by lia; apply orb_true_r. }
  split.
  { unfold tree_events. subst PB_ODR.
    destruct ALWAYS_SUCCESS; destruct (armed _); destruct (negb _ || _);
      cbn [app existsb is_store_to orb]; resolve_eqb; reflexivity. }
  split.
  { repeat constructor; unfold read8; rewrite ?HD, ?H1, ?H2;
      rewrite testbit_mod256, testbit_or8 by lia; apply orb_true_r. }
  split; [unfold read8; rewrite HC; reflexivity|].
  rewrite Htr. unfold setup_events, tree_events.
  destruct ALWAYS_SUCCESS; destruct (armed _); destruct (negb _ || _);
    cbn [app ld_indices]; repeat constructor.
Qed.

(** X8: the program writes no memory location but the five registers:
    any other address, the probe bytes at 0x8000 and 0x480b among them,
    holds at the idle loop what it held at reset; and from the trigger on
    every store goes to the port B output register. *)
Theorem X8_memory_frame
        (ALWAYS_SUCCESS : bool) (m : Z -> Z) (a : Z) (z i : bool) (x : Z) :
  x <> CLK_PCKENR1 -> x <> PB_DDR -> x <> PB_CR1 -> x <> PB_CR2 ->
  x <> PB_ODR ->
  exists s,
    main CLK_PCKENR1 PB_DDR PB_CR1 PB_CR2 PB_ODR ALWAYS_SUCCESS (boot m a z i)
      = Some s /\
    mem s x = m x /\
    forallb (fun e => negb (is_store e) || is_store_to PB_ODR e)
            (skipn 4 (trace s)) = true.
Proof.
  intros XC XD X1 X2 XO.
  destruct (main_spec ALWAYS_SUCCESS m a z i) as (s & Hrun & Htr & _).
  cbv zeta in Htr.
  exists s. split; [exact Hrun|]. split.
  - rewrite (main_mem _ _ _ _ _ _ x Hrun) by assumption.
    destruct (Z.eqb_spec x CLK_PCKENR1); [contradiction | reflexivity].
  - rewrite Htr. unfold setup_events, tree_events.
    assert (E : PB_ODR = 0x5005) by apply Hh. rewrite E.
    destruct ALWAYS_SUCCESS; destruct (armed _); destruct (negb _ || _);
      reflexivity.
Qed.

(** X9: in both builds [sim] is executed exactly once, as the sixth
    action of the program, right after the trigger and before every
    [ld A, addr]; the interrupt mask is set when the idle loop is entered,
    whatever the flags were at reset. *)
Theorem X9_interrupts_masked
        (ALWAYS_SUCCESS : bool) (m : Z -> Z) (a : Z) (z i : bool) :
  exists s,
    main CLK_PCKENR1 PB_DDR PB_CR1 PB_CR2 PB_ODR ALWAYS_SUCCESS (boot m a z i)
      = Some s /\
    ccI s = true /\
    sim_indices 0 (trace s) = [5%nat] /\
    Forall (fun q => (5 < q)%nat) (ld_indices 0 (trace s)).
Proof.
  destruct (main_spec ALWAYS_SUCCESS m a z i)
    as (s & Hrun & Htr & _ & _ & _ & _ & HI).
  cbv zeta in Htr.
  exists s. split; [exact Hrun|]. split; [exact HI|].
  rewrite Htr. unfold setup_events, tree_events.
  destruct ALWAYS_SUCCESS; destruct (armed _); destruct (negb _ || _);
    cbn [app sim_indices ld_indices]; split; try reflexivity;
    repeat constructor.
Qed.

Lemma lor_or8_absorb (v k : Z) :
  0 <= k < 256 -> Z.lor (v mod 256) (or8 v k) = or8 v k.
Proof.
  intros Hk. rewrite (or8_lor v k Hk), Z.lor_assoc, Z.lor_diag. reflexivity.
Qed.

Lemma lor_or8_absorb_byte (v j k : Z) :
  0 <= k < 256 -> Z.lor (or8 v j) (or8 (or8 v j) k) = or8 (or8 v j) k.
Proof.
  intros Hk. rewrite <- (or8_byte v j) at 1. apply lor_or8_absorb. exact Hk.
Qed.

(** X10: the program never clears a bit of the port B output register:
    every value it stores there contains the bits of the value the
    register held before, in both builds and for every memory content.  In
    particular every value stored has bit 1 set: once raised, the trigger
    stays high. *)
Theorem X10_outputs_never_cleared
        (ALWAYS_SUCCESS : bool) (m : Z -> Z) (a : Z) (z i : bool) :
  let s0 := boot m a z i in
  exists s,
    main CLK_PCKENR1 PB_DDR PB_CR1 PB_CR2 PB_ODR ALWAYS_SUCCESS s0 = Some s /\
    bits_only_set (read8 s0 PB_ODR) (stores_to PB_ODR (trace s)) = true /\
    Forall (fun v => Z.testbit v 1 = true) (stores_to PB_ODR (trace s)) /\
    (2 <= List.length (stores_to PB_ODR (trace s)))%nat.
Proof.
  cbv zeta.
  destruct (main_spec ALWAYS_SUCCESS m a z i) as (s & Hrun & Htr & _).
  cbv zeta in Htr.
  exists s. split; [exact Hrun|].
  rewrite Htr. unfold setup_events, tree_events, read8, boot; cbn [mem].
  destruct Hh as (HO & HC & HD & H1 & H2 & Hne). subst PB_ODR.
  destruct ALWAYS_SUCCESS; destruct (armed _); destruct (negb _ || _);
    cbn [app stores_to]; resolve_eqb; cbn [bits_only_set List.length];
    rewrite ?lor_or8_absorb, ?lor_or8_absorb_byte by lia;
    rewrite ?Z.eqb_refl; cbn [andb];
    (split; [reflexivity | split; [|lia]]);
    repeat constructor; rewrite ?testbit_or8 by lia;
    change (Z.testbit 2 1) with true; rewrite ?orb_true_r; reflexivity.
Qed.

(** X11: in both builds PB5 is high at the idle loop exactly when it was
    high at reset or the enter_app arm was taken; PB4 is high exactly when
    it was high at reset, or the rdp_check arm was taken, or the build is
    ALWAYS_SUCCESS.  So with ALWAYS_SUCCESS PB5 still tells the arm and PB4
    does not. *)
Theorem X11_result_pins_in_both_builds
        (ALWAYS_SUCCESS : bool) (m : Z -> Z) (a : Z) (z i : bool) :
  let s0 := boot m a z i in
  let enter := armed (read8 s0 0x8000) && negb (read8 s0 0x480b =? 0x55) in
  exists s,
    main CLK_PCKENR1 PB_DDR PB_CR1 PB_CR2 PB_ODR ALWAYS_SUCCESS s0 = Some s /\
    reached enter_app s = enter /\
    reached rdp_check s = negb enter /\
    pin 5 (read8 s PB_ODR) = pin 5 (read8 s0 PB_ODR) || enter /\
    pin 4 (read8 s PB_ODR) =
      pin 4 (read8 s0 PB_ODR) || negb enter || ALWAYS_SUCCESS /\
    pin 1 (read8 s PB_ODR) = true.
Proof.
  cbv zeta.
  destruct (main_spec ALWAYS_SUCCESS m a z i) as (s & Hrun & Htr & HO & _).
  cbv zeta in Htr, HO.
  exists s. split; [exact Hrun|].
  unfold reached. rewrite Htr. unfold setup_events, tree_events.
  unfold pin, read8, boot; cbn [mem]. rewrite HO.
  destruct ALWAYS_SUCCESS;
    destruct (armed (m 0x8000 mod 256));
    destruct (m 0x480b mod 256 =? 0x55);
    cbn [negb orb andb app existsb label_eqb];
    rewrite ?testbit_mod256, ?testbit_or8 by lia;
    change (Z.testbit 2 1) with true; change (Z.testbit 2 4) with false;
    change (Z.testbit 2 5) with false; change (Z.testbit 16 4) with true;
    change (Z.testbit 16 5) with false; change (Z.testbit 32 4) with false;
    change (Z.testbit 32 5) with true;
    rewrite ?orb_false_r, ?orb_true_r; repeat split; reflexivity.
Qed.

End STM8L_Properties.


(** * Properties of the ATmega328P blink *)

Section AVR_Properties.
Import AVR.

Variable PB5 : Z.
Hypothesis PB5_bit : 0 <= PB5 < 8.

Lemma pin_mask_byte : 0 <= Z.shiftl 1 PB5 < 256.
Proof.
  rewrite Z.shiftl_1_l. split; [apply Z.pow_nonneg; lia|].
  change 256 with (2 ^ 8). apply Z.pow_lt_mono_r; lia.
Qed.

Lemma byte_of_bits (x : Z) :
  (forall n, 8 <= n -> Z.testbit x n = false) -> x mod 256 = x.
Proof.
  intros H. apply Z.bits_inj'. intros n Hn. change 256 with (2 ^ 8).
  destruct (Z.ltb_spec n 8).
  - apply Z.mod_pow2_bits_low. lia.
  - rewrite Z.mod_pow2_bits_high, H by lia. reflexivity.
Qed.

Lemma byte_high_bits (v n : Z) : 8 <= n -> Z.testbit (v mod 256) n = false.
Proof. intros H. change 256 with (2 ^ 8). apply Z.mod_pow2_bits_high. lia. Qed.

Lemma mask_high_bits (k n : Z) :
  0 <= k < 256 -> 8 <= n -> Z.testbit k n = false.
Proof.
  intros Hk Hn. rewrite <- (Z.mod_small k 256) by lia.
  now apply byte_high_bits.
Qed.

Lemma lxor_byte (v k : Z) :
  0 <= k < 256 -> Z.lxor (v mod 256) k mod 256 = Z.lxor (v mod 256) k.
Proof.
  intros Hk. apply byte_of_bits. intros n Hn.
  now rewrite Z.lxor_spec, byte_high_bits, (mask_high_bits k n Hk Hn).
Qed.

Lemma lor_byte (v k : Z) :
  0 <= k < 256 -> Z.lor (v mod 256) k mod 256 = Z.lor (v mod 256) k.
Proof.
  intros Hk. apply byte_of_bits. intros n Hn.
  now rewrite Z.lor_spec, byte_high_bits, (mask_high_bits k n Hk Hn).
Qed.

Lemma loop_spec (n : nat) (s : avr) :
  DDRB (loop PB5 n s) = DDRB s /\
  elapsed_ms (loop PB5 n s) = elapsed_ms s + 100 * Z.of_nat n /\
  PORTB (loop PB5 n s) mod 256 =
    if Nat.even n then PORTB s mod 256
    else Z.lxor (PORTB s mod 256) (Z.shiftl 1 PB5).
Proof.
  revert s. induction n as [|n IH]; intros s.
  - cbn. rewrite Z.add_0_r. auto.
  - cbn [loop]. destruct (IH (iteration PB5 s)) as (Hd & He & Hp).
    rewrite Hd, He, Hp. cbn [iteration DDRB elapsed_ms PORTB].
    rewrite Z.mod_mod, (lxor_byte _ _ pin_mask_byte) by lia.
    rewrite Nat.even_succ, <- Nat.negb_even.
    repeat split; [lia|].
    destruct (Nat.even n); cbn [negb]; [reflexivity|].
    rewrite Z.lxor_assoc, Z.lxor_nilpotent, Z.lxor_0_r. reflexivity.
Qed.

(** X12: after [n] iterations of the blink loop, PORTB (as a byte) is
    what it was at the start when [n] is even and differs from that in
    bit PB5 only when [n] is odd; DDRB is its initial byte with bit PB5
    set; and the delays add up to 100 ms per iteration, so the LED
    changes every 100 ms. *)
Theorem X12_blink_toggles_every_100ms (n : nat) (s : avr) :
  let s' := AVR.main PB5 n s in
  PORTB s' mod 256 =
    (if Nat.even n then PORTB s mod 256
     else Z.lxor (PORTB s mod 256) (Z.shiftl 1 PB5)) /\
  Z.testbit (PORTB s' mod 256) PB5 =
    xorb (Z.testbit (PORTB s mod 256) PB5) (Nat.odd n) /\
  DDRB s' = Z.lor (DDRB s mod 256) (Z.shiftl 1 PB5) /\
  elapsed_ms s' = elapsed_ms s + 100 * Z.of_nat n.
Proof.
  cbv zeta. unfold AVR.main.
  destruct (loop_spec n (setup PB5 s)) as (Hd & He & Hp).
  cbn [setup DDRB PORTB elapsed_ms] in Hd, He, Hp.
  rewrite Hd, He, Hp. repeat split.
  - rewrite <- Nat.negb_even. destruct (Nat.even n); cbn [negb].
    + now rewrite xorb_false_r.
    + rewrite Z.lxor_spec, Z.shiftl_spec, Z.sub_diag by lia.
      reflexivity.
  - apply lor_byte, pin_mask_byte.
Qed.

End AVR_Properties.

(** * The theorems at the STM8L15x register map and the literal scenarios *)

(** stm8l.h instantiated with the register addresses of the STM8L15x:
    CLK_PCKENR1 = 0x50c3, PB_ODR = 0x5005, PB_DDR = 0x5007,
    PB_CR1 = 0x5008, PB_CR2 = 0x5009. *)
Lemma stm8l15x_header_ok : STM8L.header_ok 0x50c3 0x5007 0x5008 0x5009 0x5005.
Proof. unfold STM8L.header_ok. repeat split; lia. Defined.

(** Reset with 0x8000 = 0xAC and 0x480B = 0x55: PB4 high, PB5 low. *)
Lemma C4_branch_decision_witness :
  STM8L.header_ok 0x50c3 0x5007 0x5008 0x5009 0x5005 /\
  exists s,
    STM8L.main 0x50c3 0x5007 0x5008 0x5009 0x5005 false
               (STM8L.boot (STM8L.flash 0xac 0x55) 0 false false) = Some s /\
    STM8L.reached STM8L.rdp_check s = true /\
    STM8L.reached STM8L.enter_app s = false /\
    STM8L.pin 4 (STM8L.read8 s 0x5005) = true /\
    STM8L.pin 5 (STM8L.read8 s 0x5005) = false.
Proof.
  split; [exact stm8l15x_header_ok|].
  destruct (C4_branch_decision 0x50c3 0x5007 0x5008 0x5009 0x5005
              stm8l15x_header_ok (STM8L.flash 0xac 0x55) 0 false false)
    as (s & Hrun & _ & _ & _ & Hr & He & _ & _ & Hsc & _).
  exists s. split; [exact Hrun|].
  split; [exact Hr|]. split; [exact He|].
  exact (Hsc eq_refl eq_refl).
Defined.

(** From the same reset image PB1 rises once, then PB4, and nothing
    else. *)
Lemma C5_one_result_pin_after_trigger_witness :
  STM8L.header_ok 0x50c3 0x5007 0x5008 0x5009 0x5005 /\
  Z.testbit (STM8L.flash 0xac 0x55 0x5005) 1 = false /\
  Z.testbit (STM8L.flash 0xac 0x55 0x5005) 4 = false /\
  Z.testbit (STM8L.flash 0xac 0x55 0x5005) 5 = false /\
  exists s,
    STM8L.main 0x50c3 0x5007 0x5008 0x5009 0x5005 false
               (STM8L.boot (STM8L.flash 0xac 0x55) 0 false false) = Some s /\
    STM8L.rising_edges 0x5005 1 0 0 (STM8L.trace s) = [4%nat] /\
    (List.length (STM8L.rising_edges 0x5005 4 0 0 (STM8L.trace s) ++
                  STM8L.rising_edges 0x5005 5 0 0 (STM8L.trace s)) = 1)%nat.
Proof.
  split; [exact stm8l15x_header_ok|].
  split; [reflexivity|]. split; [reflexivity|]. split; [reflexivity|].
  destruct (C5_one_result_pin_after_trigger 0x50c3 0x5007 0x5008 0x5009 0x5005
              stm8l15x_header_ok (STM8L.flash 0xac 0x55) 0 false false
              eq_refl eq_refl eq_refl)
    as (s & Hrun & H1 & H45 & _).
  exists s. split; [exact Hrun|]. split; [exact H1 | exact H45].
Defined.

(** Built with ALWAYS_SUCCESS and reset into the enter_app arm, PB4 is
    high all the same. *)
Lemma C9_always_success_witness :
  STM8L.header_ok 0x50c3 0x5007 0x5008 0x5009 0x5005 /\
  exists s,
    STM8L.main 0x50c3 0x5007 0x5008 0x5009 0x5005 true
               (STM8L.boot (STM8L.flash 0xac 0x00) 0 false false) = Some s /\
    STM8L.pin 4 (STM8L.read8 s 0x5005) = true.
Proof.
  split; [exact stm8l15x_header_ok|].
  destruct (C9_always_success 0x50c3 0x5007 0x5008 0x5009 0x5005
              stm8l15x_header_ok (STM8L.flash 0xac 0x00) 0 false false)
    as (s & s1 & v & Hrun & _ & _ & _ & _ & H4 & _).
  exists s. split; [exact Hrun | exact H4].
Defined.

(** With every port B register at 0xff before the program, the other pins
    keep their bits. *)
Lemma C10_other_pins_untouched_witness :
  STM8L.header_ok 0x50c3 0x5007 0x5008 0x5009 0x5005 /\
  exists s,
    STM8L.main 0x50c3 0x5007 0x5008 0x5009 0x5005 false
               (STM8L.boot (fun _ => 0xff) 0 false false) = Some s /\
    STM8L.read8 s 0x5007 = 0xff /\
    Forall (fun r =>
      Forall (fun bit =>
                Z.testbit (STM8L.read8 s r) bit =
                Z.testbit (STM8L.read8
                             (STM8L.boot (fun _ => 0xff) 0 false false) r) bit)
             [0; 2; 3; 6; 7])
      [0x5007; 0x5008; 0x5009; 0x5005].
Proof.
  split; [exact stm8l15x_header_ok|].
  destruct (C10_other_pins_untouched 0x50c3 0x5007 0x5008 0x5009 0x5005
              stm8l15x_header_ok false (fun _ => 0xff) 0 false false)
    as (s & Hrun & _ & HD & _ & _ & _ & HF).
  exists s. split; [exact Hrun|]. split; [exact HD | exact HF].
Defined.

(** The literal end-to-end scenarios, by evaluation. *)
Example rp2040_go :
  RP2040.cout (snd (RP2040.main_loop 25 ["go"%string] RP2040.idle_machine))
  = ("XXX256YYY256ZZZ" ++ nl)%string.
Proof. vm_compute. reflexivity. Qed.

Example rp2040_empty_line :
  RP2040.cout (snd (RP2040.main_loop 25 [EmptyString] RP2040.idle_machine))
  = ("XXX256YYY256ZZZ" ++ nl)%string.
Proof. vm_compute. reflexivity. Qed.

Example stm8l_ac_55 :
  option_map (fun s => (STM8L.pin 1 (STM8L.read8 s 0x5005),
                        STM8L.pin 4 (STM8L.read8 s 0x5005),
                        STM8L.pin 5 (STM8L.read8 s 0x5005)))
    (STM8L.main 0x50c3 0x5007 0x5008 0x5009 0x5005 false
                (STM8L.boot (STM8L.flash 0xac 0x55) 0 false false))
  = Some (true, true, false).
Proof. vm_compute. reflexivity. Qed.

Example stm8l_ac_00 :
  option_map (fun s => (STM8L.pin 1 (STM8L.read8 s 0x5005),
                        STM8L.pin 4 (STM8L.read8 s 0x5005),
                        STM8L.pin 5 (STM8L.read8 s 0x5005)))
    (STM8L.main 0x50c3 0x5007 0x5008 0x5009 0x5005 false
                (STM8L.boot (STM8L.flash 0xac 0x00) 0 false false))
  = Some (true, false, true).
Proof. vm_compute. reflexivity. Qed.

Example stm8l_00 :
  option_map (fun s => (STM8L.pin 1 (STM8L.read8 s 0x5005),
                        STM8L.pin 4 (STM8L.read8 s 0x5005),
                        STM8L.pin 5 (STM8L.read8 s 0x5005)))
    (STM8L.main 0x50c3 0x5007 0x5008 0x5009 0x5005 false
                (STM8L.boot (STM8L.flash 0x00 0x55) 0 false false))
  = Some (true, true, false).
Proof. vm_compute. reflexivity. Qed.

Example stm8l_always_success_ac_00 :
  option_map (fun s => (STM8L.pin 1 (STM8L.read8 s 0x5005),
                        STM8L.pin 4 (STM8L.read8 s 0x5005),
                        STM8L.pin 5 (STM8L.read8 s 0x5005)))
    (STM8L.main 0x50c3 0x5007 0x5008 0x5009 0x5005 true
                (STM8L.boot (STM8L.flash 0xac 0x00) 0 false false))
  = Some (true, true, true).
Proof. vm_compute. reflexivity. Qed.

(** * The further properties at concrete inputs *)

Lemma X7_pins_configured_before_decision_witness :
  STM8L.header_ok 0x50c3 0x5007 0x5008 0x5009 0x5005 /\
  exists s,
    STM8L.main 0x50c3 0x5007 0x5008 0x5009 0x5005 false
               (STM8L.boot (STM8L.flash 0xac 0x55) 0 false false) = Some s /\
    STM8L.read8 s 0x50c3 = 0xff /\
    Forall (fun q => (3 < q)%nat) (STM8L.ld_indices 0 (STM8L.trace s)).
Proof.
  split; [exact stm8l15x_header_ok|].
  destruct (X7_pins_configured_before_decision
              0x50c3 0x5007 0x5008 0x5009 0x5005 stm8l15x_header_ok
              false (STM8L.flash 0xac 0x55) 0 false false)
    as (s & v1 & v2 & v3 & rest & Hrun & _ & _ & _ & _ & HC & HL).
  exists s. split; [exact Hrun|]. split; [exact HC | exact HL].
Defined.

(** The probe byte at 0x8000 is not modified. *)
Lemma X8_memory_frame_witness :
  STM8L.header_ok 0x50c3 0x5007 0x5008 0x5009 0x5005 /\
  0x8000 <> 0x50c3 /\ 0x8000 <> 0x5007 /\ 0x8000 <> 0x5008 /\
  0x8000 <> 0x5009 /\ 0x8000 <> 0x5005 /\
  exists s,
    STM8L.main 0x50c3 0x5007 0x5008 0x5009 0x5005 true
               (STM8L.boot (STM8L.flash 0xac 0x00) 0 false false) = Some s /\
    STM8L.mem s 0x8000 = 0xac.
Proof.
  split; [exact stm8l15x_header_ok|].
  assert (H1 : 0x8000 <> 0x50c3) by lia.
  assert (H2 : 0x8000 <> 0x5007) by lia.
  assert (H3 : 0x8000 <> 0x5008) by lia.
  assert (H4 : 0x8000 <> 0x5009) by lia.
  assert (H5 : 0x8000 <> 0x5005) by lia.
  repeat (split; [assumption|]).
  destruct (X8_memory_frame 0x50c3 0x5007 0x5008 0x5009 0x5005
              stm8l15x_header_ok true (STM8L.flash 0xac 0x00) 0 false false
              0x8000 H1 H2 H3 H4 H5)
    as (s & Hrun & Hm & _).
  exists s. split; [exact Hrun | exact Hm].
Defined.

Lemma X9_interrupts_masked_witness :
  STM8L.header_ok 0x50c3 0x5007 0x5008 0x5009 0x5005 /\
  exists s,
    STM8L.main 0x50c3 0x5007 0x5008 0x5009 0x5005 false
               (STM8L.boot (STM8L.flash 0x00 0x00) 0 false false) = Some s /\
    STM8L.ccI s = true.
Proof.
  split; [exact stm8l15x_header_ok|].
  destruct (X9_interrupts_masked 0x50c3 0x5007 0x5008 0x5009 0x5005
              stm8l15x_header_ok false (STM8L.flash 0x00 0x00) 0 false false)
    as (s & Hrun & HI & _).
  exists s. split; [exact Hrun | exact HI].
Defined.

Lemma X10_outputs_never_cleared_witness :
  STM8L.header_ok 0x50c3 0x5007 0x5008 0x5009 0x5005 /\
  exists s,
    STM8L.main 0x50c3 0x5007 0x5008 0x5009 0x5005 true
               (STM8L.boot (fun _ => 0xff) 0 false false) = Some s /\
    Forall (fun v => Z.testbit v 1 = true)
           (STM8L.stores_to 0x5005 (STM8L.trace s)).
Proof.
  split; [exact stm8l15x_header_ok|].
  destruct (X10_outputs_never_cleared 0x50c3 0x5007 0x5008 0x5009 0x5005
              stm8l15x_header_ok true (fun _ => 0xff) 0 false false)
    as (s & Hrun & _ & HF & _).
  exists s. split; [exact Hrun | exact HF].
Defined.

(** Built with ALWAYS_SUCCESS and reset into the enter_app arm: PB5
    high. *)
Lemma X11_result_pins_in_both_builds_witness :
  STM8L.header_ok 0x50c3 0x5007 0x5008 0x5009 0x5005 /\
  exists s,
    STM8L.main 0x50c3 0x5007 0x5008 0x5009 0x5005 true
               (STM8L.boot (STM8L.flash 0x82 0x00) 0 false false) = Some s /\
    STM8L.reached STM8L.enter_app s = true /\
    STM8L.pin 5 (STM8L.read8 s 0x5005) = true.
Proof.
  split; [exact stm8l15x_header_ok|].
  destruct (X11_result_pins_in_both_builds
              0x50c3 0x5007 0x5008 0x5009 0x5005 stm8l15x_header_ok
              true (STM8L.flash 0x82 0x00) 0 false false)
    as (s & Hrun & He & _ & H5 & _).
  exists s. split; [exact Hrun|]. split; [exact He | exact H5].
Defined.

(** PB5 is bit 5 on the ATmega328P; three iterations from cleared
    registers leave the LED on after 300 ms. *)
Lemma X12_blink_toggles_every_100ms_witness :
  0 <= 5 < 8 /\
  AVR.PORTB (AVR.main 5 3 (AVR.mkAvr 0 0 0)) mod 256 = 32 /\
  AVR.DDRB (AVR.main 5 3 (AVR.mkAvr 0 0 0)) = 32 /\
  AVR.elapsed_ms (AVR.main 5 3 (AVR.mkAvr 0 0 0)) = 300.
Proof.
  assert (H : 0 <= 5 < 8) by lia.
  split; [exact H|].
  destruct (X12_blink_toggles_every_100ms 5 H 3 (AVR.mkAvr 0 0 0))
    as (Hp & _ & Hd & He).
  split; [exact Hp|]. split; [exact Hd | exact He].
Defined.
